(** * Receipt data augmentation of pos_multi_company_cash_control

    A shallow embedding of the two JavaScript patch files

    - [static/src/js/pos_order_extension.js]: the [PosOrder] patch, present
      in two variants (override field [order_company_data], lines 14-46, and
      override field [company_data], lines 60-92);
    - [static/src/js/pos_receipt_patch.js]: the [PosStore] patch.

    JavaScript objects are mutable and passed by reference, so the model has
    an explicit store: a value is a primitive or a location, and the heap
    maps locations to property bags.  The methods are programs of a small
    state-and-exception monad over that heap.  The host methods reached
    through [super] are not part of the repository; they are section
    variables, so every theorem holds for an arbitrary host.

    The files are ES modules, hence strict-mode code.  The model has two
    layers.  In the first (modules [JS], [OrderCompanyData], [CompanyData],
    [ReceiptPatch]) every object is an ordinary record: extensible, with own
    writable data properties keyed by strings; a store on an object then
    always succeeds.  The second layer (module [Strict] and the modules
    [Strict...]) adds what makes a store or a read on an object fail or run
    foreign code: read-only properties, non-extensible (sealed, frozen)
    objects, and accessor properties whose getters and setters are host
    functions.  The statements about which inputs make an operation return
    or raise are made in the second layer; on ordinary records the two
    layers coincide.  Neither layer has proxies or a prototype chain
    carrying one of the keys the patches use. *)

From Stdlib Require Import ZArith String List.
From Stdlib Require Import Floats.SpecFloat.
From stdpp Require Import gmap strings fin_maps.

Local Open Scope string_scope.

(** ** JavaScript values, heap and evaluation monad *)

Module JS.

Definition loc := positive.

(** The language types.  Numbers are IEEE-754 doubles in the standard
    library's specification format; functions and arrays are objects. *)
Inductive val : Type :=
| VUndef
| VNull
| VBool (b : bool)
| VNum (x : spec_float)
| VBigInt (z : Z)
| VStr (s : string)
| VSym (id : positive)
| VObj (l : loc).

Abbreviation obj := (gmap string val).
Abbreviation heap := (gmap loc (gmap string val)).

(** ToBoolean: [undefined], [null], [false], [+0], [-0], [NaN], [0n] and the
    empty string are falsy, everything else is truthy. *)
Definition truthy (v : val) : bool :=
  match v with
  | VUndef | VNull => false
  | VBool b => b
  | VNum (S754_zero _) | VNum S754_nan => false
  | VNum _ => true
  | VBigInt z => negb (Z.eqb z 0)
  | VStr s => negb (String.eqb s "")
  | VSym _ => true
  | VObj _ => true
  end.

(** [a === b] *)
Definition strict_eq (a b : val) : bool :=
  match a, b with
  | VUndef, VUndef => true
  | VNull, VNull => true
  | VBool x, VBool y => Bool.eqb x y
  | VNum x, VNum y => SFeqb x y
  | VBigInt x, VBigInt y => Z.eqb x y
  | VStr x, VStr y => String.eqb x y
  | VSym x, VSym y => Pos.eqb x y
  | VObj x, VObj y => Pos.eqb x y
  | _, _ => false
  end.

(** [a !== b] *)
Definition strict_neq (a b : val) : bool := negb (strict_eq a b).

(** [a || b] and [a ?? b], for a right operand without effects (in the
    patches it is always a literal). *)
Definition js_or (a b : val) : val := if truthy a then a else b.

Definition js_nullish (a b : val) : val :=
  match a with
  | VUndef | VNull => b
  | _ => a
  end.

(** A reference never dangles in JavaScript: a location without an entry
    denotes the object with no own property. *)
Definition hobj (l : loc) (h : heap) : obj := default ∅ (h !! l).

(** Reading a missing property yields [undefined]. *)
Definition hget (l : loc) (k : string) (h : heap) : val :=
  default VUndef (hobj l h !! k).

Definition hset (l : loc) (k : string) (x : val) (h : heap) : heap :=
  <[l := <[k := x]> (hobj l h)]> h.

(** Own-property test ([Object.hasOwn]). *)
Definition has_prop (l : loc) (k : string) (h : heap) : Prop :=
  is_Some (hobj l h !! k).

(** What a [throw] carries: the engine's [TypeError], or whatever value the
    host threw. *)
Inductive exn : Type :=
| TypeError
| Thrown (v : val).

Inductive outcome (A : Type) : Type :=
| Ok (a : A) (h : heap)
| Throw (e : exn) (h : heap).
Arguments Ok {A} a h.
Arguments Throw {A} e h.

Definition M (A : Type) : Type := heap -> outcome A.

Definition ret {A} (a : A) : M A := fun h => Ok a h.

Definition bind {A B} (m : M A) (f : A -> M B) : M B :=
  fun h =>
    match m h with
    | Ok a h' => f a h'
    | Throw e h' => Throw e h'
    end.

(** [v.k]: a [TypeError] on [undefined] and [null]; on the other primitives
    the lookup goes to the wrapper prototype, which has none of the keys the
    patches read. *)
Definition get_prop (v : val) (k : string) : M val :=
  fun h =>
    match v with
    | VUndef | VNull => Throw TypeError h
    | VObj l => Ok (hget l k h) h
    | _ => Ok VUndef h
    end.

(** [v.k = x] in strict mode: a [TypeError] unless [v] is an object.  The
    objects of this layer are ordinary records, on which a store succeeds;
    [Strict.set_prop] below has the objects on which it does not. *)
Definition set_prop (v : val) (k : string) (x : val) : M unit :=
  fun h =>
    match v with
    | VObj l => Ok tt (hset l k x h)
    | _ => Throw TypeError h
    end.

Definition is_obj (v : val) : bool :=
  match v with
  | VObj _ => true
  | _ => false
  end.

End JS.

Import JS.

Declare Scope js_scope.
Delimit Scope js_scope with js.
Notation "x <- c1 ;; c2" := (bind c1 (fun x => c2))
  (at level 100, c1 at next level, right associativity) : js_scope.
Notation "c1 ;; c2" := (bind c1 (fun _ => c2))
  (at level 100, right associativity) : js_scope.
Local Open Scope js_scope.

(** ** pos_order_extension.js, first variant (lines 14-46) *)

Module OrderCompanyData.
Section Patch.

(** [super.setup] and [super.export_for_printing] of the host's [PosOrder]. *)
Variable super_setup : loc -> val -> M val.
Variable super_export_for_printing : loc -> list val -> M val.

(** Lines 21-23: the three assignments that follow [super.setup(vals)]. *)
Definition initializeFields (this : loc) (vals : val) : M unit :=
  (* vals.is_fiscal_order !== undefined ? vals.is_fiscal_order : true *)
  c <- get_prop vals "is_fiscal_order" ;;
  a <- (if strict_neq c VUndef then get_prop vals "is_fiscal_order"
        else ret (VBool true)) ;;
  set_prop (VObj this) "is_fiscal_order" a ;;
  (* vals.non_fiscal_qr_data || false *)
  q <- get_prop vals "non_fiscal_qr_data" ;;
  set_prop (VObj this) "non_fiscal_qr_data" (js_or q (VBool false)) ;;
  (* vals.order_company_data || false *)
  d <- get_prop vals "order_company_data" ;;
  set_prop (VObj this) "order_company_data" (js_or d (VBool false)).

Definition setup (this : loc) (vals : val) : M unit :=
  super_setup this vals ;;
  initializeFields this vals.

(** Lines 36-44: what is done to the host's export once [super] returned. *)
Definition buildPrintExport (this : loc) (result : val) : M val :=
  (* this.order_company_data && result.headerData: the right operand is
     evaluated only when the left one is truthy *)
  d <- get_prop (VObj this) "order_company_data" ;;
  c <- (if truthy d then get_prop result "headerData" else ret d) ;;
  (if truthy c then
     (* result.headerData.company = this.order_company_data *)
     hd <- get_prop result "headerData" ;;
     x <- get_prop (VObj this) "order_company_data" ;;
     set_prop hd "company" x
   else ret tt) ;;
  a <- get_prop (VObj this) "is_fiscal_order" ;;
  set_prop result "is_fiscal_order" a ;;
  q <- get_prop (VObj this) "non_fiscal_qr_data" ;;
  set_prop result "non_fiscal_qr_data" q ;;
  ret result.

Definition export_for_printing (this : loc) (arguments : list val) : M val :=
  result <- super_export_for_printing this arguments ;;
  buildPrintExport this result.

End Patch.
End OrderCompanyData.

(** ** pos_order_extension.js, second variant (lines 60-92) *)

Module CompanyData.
Section Patch.

Variable super_setup : loc -> val -> M val.
Variable super_export_for_printing : loc -> list val -> M val.

(** Lines 66-68. *)
Definition initializeFields (this : loc) (vals : val) : M unit :=
  (* vals.company_data || false *)
  d <- get_prop vals "company_data" ;;
  set_prop (VObj this) "company_data" (js_or d (VBool false)) ;;
  (* vals.is_fiscal_order ?? true *)
  a <- get_prop vals "is_fiscal_order" ;;
  set_prop (VObj this) "is_fiscal_order" (js_nullish a (VBool true)) ;;
  (* vals.non_fiscal_qr_data || false *)
  q <- get_prop vals "non_fiscal_qr_data" ;;
  set_prop (VObj this) "non_fiscal_qr_data" (js_or q (VBool false)).

Definition setup (this : loc) (vals : val) : M unit :=
  super_setup this vals ;;
  initializeFields this vals.

(** Lines 82-90. *)
Definition buildPrintExport (this : loc) (result : val) : M val :=
  d <- get_prop (VObj this) "company_data" ;;
  c <- (if truthy d then get_prop result "headerData" else ret d) ;;
  (if truthy c then
     hd <- get_prop result "headerData" ;;
     x <- get_prop (VObj this) "company_data" ;;
     set_prop hd "company" x
   else ret tt) ;;
  a <- get_prop (VObj this) "is_fiscal_order" ;;
  set_prop result "is_fiscal_order" a ;;
  q <- get_prop (VObj this) "non_fiscal_qr_data" ;;
  set_prop result "non_fiscal_qr_data" q ;;
  ret result.

Definition export_for_printing (this : loc) (arguments : list val) : M val :=
  result <- super_export_for_printing this arguments ;;
  buildPrintExport this result.

End Patch.
End CompanyData.

(** ** pos_receipt_patch.js *)

Module ReceiptPatch.
Section Patch.

(** [super.getReceiptHeaderData] of the host's [PosStore]. *)
Variable super_getReceiptHeaderData : loc -> list val -> M val.

(** Lines 22-27: what is done to the host's header data. *)
Definition buildReceiptHeaderData (order data : val) : M val :=
  (* if (order) { ... } *)
  (if truthy order then
     a <- get_prop order "is_fiscal_order" ;;
     set_prop data "is_fiscal_order" (js_or a (VBool false)) ;;
     q <- get_prop order "non_fiscal_qr_data" ;;
     set_prop data "non_fiscal_qr_data" (js_or q (VBool false))
   else ret tt) ;;
  ret data.

(** [order] is the first actual argument, [undefined] when there is none. *)
Definition getReceiptHeaderData (this : loc) (arguments : list val) : M val :=
  let order := nth 0 arguments VUndef in
  data <- super_getReceiptHeaderData this arguments ;;
  buildReceiptHeaderData order data.

End Patch.
End ReceiptPatch.

(** ** Closed forms of the three operations

    The heap each operation leaves behind, written as nested stores; the
    lemmas of the next sections show that the monadic programs above compute
    exactly these. *)

(** [v.k] for a value that is neither [undefined] nor [null]. *)
Definition peek (v : val) (k : string) (h : heap) : val :=
  match v with
  | VObj l => hget l k h
  | _ => VUndef
  end.

Definition nullish (v : val) : bool :=
  match v with
  | VUndef | VNull => true
  | _ => false
  end.

(** The common shape of the two [export_for_printing] bodies, which differ
    in the name of the override field only. *)
Definition printExport (field : string) (this : loc) (result : val) : M val :=
  d <- get_prop (VObj this) field ;;
  c <- (if truthy d then get_prop result "headerData" else ret d) ;;
  (if truthy c then
     hd <- get_prop result "headerData" ;;
     x <- get_prop (VObj this) field ;;
     set_prop hd "company" x
   else ret tt) ;;
  a <- get_prop (VObj this) "is_fiscal_order" ;;
  set_prop result "is_fiscal_order" a ;;
  q <- get_prop (VObj this) "non_fiscal_qr_data" ;;
  set_prop result "non_fiscal_qr_data" q ;;
  ret result.

(** The override step on its own: the store to [headerData.company]. *)
Definition override_heap (field : string) (this r : loc) (h : heap) : heap :=
  match hget r "headerData" h with
  | VObj l => if truthy (hget this field h)
              then hset l "company" (hget this field h) h
              else h
  | _ => h
  end.

Definition export_heap (field : string) (this r : loc) (h : heap) : heap :=
  hset r "non_fiscal_qr_data" (hget this "non_fiscal_qr_data" h)
    (hset r "is_fiscal_order" (hget this "is_fiscal_order" h)
       (override_heap field this r h)).

(** When the body runs to its [return]: the export is an object and the
    override step, if taken, stores into an object. *)
Definition export_safe (field : string) (this : loc) (result : val) (h : heap) : bool :=
  match result with
  | VObj r =>
      negb (truthy (hget this field h))
      || negb (truthy (hget r "headerData" h))
      || is_obj (hget r "headerData" h)
  | _ => false
  end.

Definition header_heap (order : val) (d : loc) (h : heap) : heap :=
  hset d "non_fiscal_qr_data" (js_or (peek order "non_fiscal_qr_data" h) (VBool false))
    (hset d "is_fiscal_order" (js_or (peek order "is_fiscal_order" h) (VBool false)) h).

(** The sentinel discipline: a value that is truthy or exactly [false]. *)
Definition sentinel (v : val) : Prop := truthy v = true ∨ v = VBool false.

(** A host that does nothing and returns [undefined], and hosts that hand
    over a given value; used to run the patches on concrete inputs. *)
Definition idle_host {A} : loc -> A -> M val := fun _ _ => ret VUndef.
Definition const_host {A} (v : val) : loc -> A -> M val := fun _ _ => ret v.

(** No property of any object is removed between [h] and [h']. *)
Definition superset (h h' : heap) : Prop :=
  ∀ l k, has_prop l k h → has_prop l k h'.

(** Every property outside [touched] is in [h'] what it was in [h]. *)
Definition unchanged_outside (touched : loc → string → Prop) (h h' : heap) : Prop :=
  ∀ l k, ¬ touched l k → hobj l h' !! k = hobj l h !! k.

(** The host's export is usable by the override step: its [headerData] is
    an object, or is missing (or any other falsy value). *)
Definition headerData_ok (r : loc) (h : heap) : Prop :=
  is_obj (hget r "headerData" h) = true ∨ truthy (hget r "headerData" h) = false.

(** ** The scenarios of the specification, as concrete heaps *)

Module Scenario.
Local Open Scope positive_scope.

Definition order : loc := 1.
Definition bag : loc := 2.
Definition export : loc := 3.
Definition header : loc := 4.
Definition old_co : loc := 5.
Definition new_co : loc := 6.
Definition store : loc := 7.

(** The base export [{headerData: {company: {name: "Old Co"}}}]. *)
Definition base_export : heap :=
  {[ export := {[ "headerData" := VObj header ]};
     header := {[ "company" := VObj old_co ]};
     old_co := {[ "name" := VStr "Old Co" ]} ]}.

(** Scenario A: the raw input [{}]. *)
Definition heapA : heap := {[ bag := ∅ ]}.

(** Scenario B: the raw input
    [{is_fiscal_order: false, non_fiscal_qr_data: "QR123"}]. *)
Definition heapB : heap :=
  <[ bag := {[ "is_fiscal_order" := VBool false;
               "non_fiscal_qr_data" := VStr "QR123" ]} ]> base_export.

(** Scenario C: the raw input [{company_data: {name: "New Co"}}], the
    override being stored under [field]. *)
Definition heapC (field : string) : heap :=
  <[ bag := {[ field := VObj new_co ]} ]>
    (<[ new_co := {[ "name" := VStr "New Co" ]} ]> base_export).

(** The heap an operation leaves behind, whatever its outcome. *)
Definition final {A} (o : outcome A) : heap :=
  match o with
  | Ok _ h => h
  | Throw _ h => h
  end.

(** The raw input [{is_fiscal_order: null}]. *)
Definition heapNull : heap := {[ bag := {[ "is_fiscal_order" := VNull ]} ]}.

(** An order carrying an override, and a host export whose [headerData]
    is the string ["x"]. *)
Definition heapStr : heap :=
  {[ order := {[ "company_data" := VObj new_co;
                 "order_company_data" := VObj new_co;
                 "is_fiscal_order" := VBool true;
                 "non_fiscal_qr_data" := VBool false ]};
     new_co := {[ "name" := VStr "New Co" ]};
     export := {[ "headerData" := VStr "x" ]} ]}.

(** The same order, and a host export without [headerData]. *)
Definition heapNoHeader : heap :=
  {[ order := {[ "company_data" := VObj new_co;
                 "order_company_data" := VObj new_co;
                 "is_fiscal_order" := VBool true;
                 "non_fiscal_qr_data" := VBool false ]};
     new_co := {[ "name" := VStr "New Co" ]};
     export := {[ "total" := VStr "12.00" ]} ]}.
End Scenario.

(** ** Second layer: protected objects and accessor properties *)

Module Strict.

(** Host functions used as getters and setters. *)
Definition fid := positive.

(** What an own property can be besides a plain writable data property: a
    data property that is not writable, or an accessor property with an
    optional getter and an optional setter. *)
Inductive attr : Type :=
| ReadOnly
| Accessor (getter setter : option fid).

(** The heap of the first layer, the properties that are not plain, and the
    objects that are not extensible.  A frozen object is a non-extensible
    object all of whose properties are read-only. *)
Record state : Type := mkState {
  heap_of : heap;
  attrs : gmap (loc * string) attr;
  inextensible : gset loc
}.

Definition with_heap (h : heap) (s : state) : state :=
  mkState h (attrs s) (inextensible s).

Inductive outcome (A : Type) : Type :=
| Ok (a : A) (s : state)
| Throw (e : exn) (s : state).
Arguments Ok {A} a s.
Arguments Throw {A} e s.

Definition M (A : Type) : Type := state -> outcome A.

Definition ret {A} (a : A) : M A := fun s => Ok a s.

Definition bind {A B} (m : M A) (f : A -> M B) : M B :=
  fun s =>
    match m s with
    | Ok a s' => f a s'
    | Throw e s' => Throw e s'
    end.

Section Engine.

(** Calling a host function with a receiver and arguments. *)
Variable call : fid -> val -> list val -> M val.

(** [v.k]: on an object, a getter is called with the object as receiver; an
    accessor without getter reads as [undefined]. *)
Definition get_prop (v : val) (k : string) : M val :=
  fun s =>
    match v with
    | VUndef | VNull => Throw TypeError s
    | VObj l =>
        match attrs s !! (l, k) with
        | Some (Accessor (Some g) _) => call g (VObj l) [] s
        | Some (Accessor None _) => Ok VUndef s
        | Some ReadOnly | None => Ok (hget l k (heap_of s)) s
        end
    | _ => Ok VUndef s
    end.

(** [v.k = x] in strict mode.  On an object: a setter is called; a read-only
    property and an accessor without setter raise a [TypeError]; a plain
    property is overwritten; a missing property is created unless the object
    is not extensible, which raises a [TypeError]. *)
Definition set_prop (v : val) (k : string) (x : val) : M unit :=
  fun s =>
    match v with
    | VObj l =>
        match attrs s !! (l, k) with
        | Some ReadOnly => Throw TypeError s
        | Some (Accessor _ None) => Throw TypeError s
        | Some (Accessor _ (Some f)) =>
            match call f (VObj l) [x] s with
            | Ok _ s' => Ok tt s'
            | Throw e s' => Throw e s'
            end
        | None =>
            if bool_decide (is_Some (hobj l (heap_of s) !! k))
               || negb (bool_decide (l ∈ inextensible s))
            then Ok tt (with_heap (hset l k x (heap_of s)) s)
            else Throw TypeError s
        end
    | _ => Throw TypeError s
    end.

End Engine.

(** A host that hands over a given value. *)
Definition const_host {A} (v : val) : loc -> A -> M val := fun _ _ => ret v.

(** Host functions that do nothing. *)
Definition no_call : fid -> val -> list val -> M val := fun _ _ _ => ret VUndef.

(** An outcome of the first layer, seen in the second. *)
Definition lift {A} (s : state) (o : JS.outcome A) : outcome A :=
  match o with
  | JS.Ok a h => Ok a (with_heap h s)
  | JS.Throw e h => Throw e (with_heap h s)
  end.

(** [k] is not an accessor property of [l]. *)
Definition data_at (l : loc) (k : string) (s : state) : Prop :=
  match attrs s !! (l, k) with
  | Some (Accessor _ _) => False
  | _ => True
  end.

(** The properties of [v], if it is an object, are data properties. *)
Definition readable (v : val) (s : state) : Prop :=
  ∀ l k, v = VObj l → data_at l k s.

(** [v], if it is an object, is an ordinary record: extensible, all of its
    properties plain. *)
Definition ordinary (v : val) (s : state) : Prop :=
  ∀ l, v = VObj l → (l ∉ inextensible s) ∧ (∀ k, attrs s !! (l, k) = None).

(** The store [l.k = x] is refused: read-only property, accessor without
    setter, or missing property of an object that is not extensible. *)
Definition refuses (l : loc) (k : string) (s : state) : bool :=
  match attrs s !! (l, k) with
  | Some ReadOnly => true
  | Some (Accessor _ None) => true
  | Some (Accessor _ (Some _)) => false
  | None =>
      negb (bool_decide (is_Some (hobj l (heap_of s) !! k)))
      && bool_decide (l ∈ inextensible s)
  end.

End Strict.

Declare Scope strict_scope.
Delimit Scope strict_scope with strict.
Notation "x <- c1 ;; c2" := (Strict.bind c1 (fun x => c2))
  (at level 100, c1 at next level, right associativity) : strict_scope.
Notation "c1 ;; c2" := (Strict.bind c1 (fun _ => c2))
  (at level 100, right associativity) : strict_scope.

(** *** pos_order_extension.js, first variant, second layer *)

Module StrictOrderCompanyData.
Section Patch.

Variable call : Strict.fid -> val -> list val -> Strict.M val.
Variable super_setup : loc -> val -> Strict.M val.
Variable super_export_for_printing : loc -> list val -> Strict.M val.

(** Lines 21-23. *)
Definition initializeFields (this : loc) (vals : val) : Strict.M unit :=
  (c <- Strict.get_prop call vals "is_fiscal_order" ;;
   a <- (if strict_neq c VUndef then Strict.get_prop call vals "is_fiscal_order"
         else Strict.ret (VBool true)) ;;
   Strict.set_prop call (VObj this) "is_fiscal_order" a ;;
   q <- Strict.get_prop call vals "non_fiscal_qr_data" ;;
   Strict.set_prop call (VObj this) "non_fiscal_qr_data" (js_or q (VBool false)) ;;
   d <- Strict.get_prop call vals "order_company_data" ;;
   Strict.set_prop call (VObj this) "order_company_data" (js_or d (VBool false)))%strict.

Definition setup (this : loc) (vals : val) : Strict.M unit :=
  (super_setup this vals ;;
   initializeFields this vals)%strict.

(** Lines 36-44. *)
Definition buildPrintExport (this : loc) (result : val) : Strict.M val :=
  (d <- Strict.get_prop call (VObj this) "order_company_data" ;;
   c <- (if truthy d then Strict.get_prop call result "headerData" else Strict.ret d) ;;
   (if truthy c then
      hd <- Strict.get_prop call result "headerData" ;;
      x <- Strict.get_prop call (VObj this) "order_company_data" ;;
      Strict.set_prop call hd "company" x
    else Strict.ret tt) ;;
   a <- Strict.get_prop call (VObj this) "is_fiscal_order" ;;
   Strict.set_prop call result "is_fiscal_order" a ;;
   q <- Strict.get_prop call (VObj this) "non_fiscal_qr_data" ;;
   Strict.set_prop call result "non_fiscal_qr_data" q ;;
   Strict.ret result)%strict.

Definition export_for_printing (this : loc) (arguments : list val) : Strict.M val :=
  (result <- super_export_for_printing this arguments ;;
   buildPrintExport this result)%strict.

End Patch.
End StrictOrderCompanyData.

(** *** pos_order_extension.js, second variant, second layer *)

Module StrictCompanyData.
Section Patch.

Variable call : Strict.fid -> val -> list val -> Strict.M val.
Variable super_setup : loc -> val -> Strict.M val.
Variable super_export_for_printing : loc -> list val -> Strict.M val.

(** Lines 66-68. *)
Definition initializeFields (this : loc) (vals : val) : Strict.M unit :=
  (d <- Strict.get_prop call vals "company_data" ;;
   Strict.set_prop call (VObj this) "company_data" (js_or d (VBool false)) ;;
   a <- Strict.get_prop call vals "is_fiscal_order" ;;
   Strict.set_prop call (VObj this) "is_fiscal_order" (js_nullish a (VBool true)) ;;
   q <- Strict.get_prop call vals "non_fiscal_qr_data" ;;
   Strict.set_prop call (VObj this) "non_fiscal_qr_data" (js_or q (VBool false)))%strict.

Definition setup (this : loc) (vals : val) : Strict.M unit :=
  (super_setup this vals ;;
   initializeFields this vals)%strict.

(** Lines 82-90. *)
Definition buildPrintExport (this : loc) (result : val) : Strict.M val :=
  (d <- Strict.get_prop call (VObj this) "company_data" ;;
   c <- (if truthy d then Strict.get_prop call result "headerData" else Strict.ret d) ;;
   (if truthy c then
      hd <- Strict.get_prop call result "headerData" ;;
      x <- Strict.get_prop call (VObj this) "company_data" ;;
      Strict.set_prop call hd "company" x
    else Strict.ret tt) ;;
   a <- Strict.get_prop call (VObj this) "is_fiscal_order" ;;
   Strict.set_prop call result "is_fiscal_order" a ;;
   q <- Strict.get_prop call (VObj this) "non_fiscal_qr_data" ;;
   Strict.set_prop call result "non_fiscal_qr_data" q ;;
   Strict.ret result)%strict.

Definition export_for_printing (this : loc) (arguments : list val) : Strict.M val :=
  (result <- super_export_for_printing this arguments ;;
   buildPrintExport this result)%strict.

End Patch.
End StrictCompanyData.

(** *** pos_receipt_patch.js, second layer *)

Module StrictReceiptPatch.
Section Patch.

Variable call : Strict.fid -> val -> list val -> Strict.M val.
Variable super_getReceiptHeaderData : loc -> list val -> Strict.M val.

(** Lines 22-27. *)
Definition buildReceiptHeaderData (order data : val) : Strict.M val :=
  ((if truthy order then
      a <- Strict.get_prop call order "is_fiscal_order" ;;
      Strict.set_prop call data "is_fiscal_order" (js_or a (VBool false)) ;;
      q <- Strict.get_prop call order "non_fiscal_qr_data" ;;
      Strict.set_prop call data "non_fiscal_qr_data" (js_or q (VBool false))
    else Strict.ret tt) ;;
   Strict.ret data)%strict.

Definition getReceiptHeaderData (this : loc) (arguments : list val) : Strict.M val :=
  let order := nth 0 arguments VUndef in
  (data <- super_getReceiptHeaderData this arguments ;;
   buildReceiptHeaderData order data)%strict.

End Patch.
End StrictReceiptPatch.

(** The common shape of the two export bodies in the second layer. *)
Definition strictPrintExport (call : Strict.fid -> val -> list val -> Strict.M val)
    (field : string) (this : loc) (result : val) : Strict.M val :=
  (d <- Strict.get_prop call (VObj this) field ;;
   c <- (if truthy d then Strict.get_prop call result "headerData" else Strict.ret d) ;;
   (if truthy c then
      hd <- Strict.get_prop call result "headerData" ;;
      x <- Strict.get_prop call (VObj this) field ;;
      Strict.set_prop call hd "company" x
    else Strict.ret tt) ;;
   a <- Strict.get_prop call (VObj this) "is_fiscal_order" ;;
   Strict.set_prop call result "is_fiscal_order" a ;;
   q <- Strict.get_prop call (VObj this) "non_fiscal_qr_data" ;;
   Strict.set_prop call result "non_fiscal_qr_data" q ;;
   Strict.ret result)%strict.


(** States for the scenarios: the order with an override and the export
    [{total: "12.00"}] as ordinary records; the same with the export frozen;
    the export [{headerData: "x"}]; the empty bag. *)
Module StrictScenario.

Definition plain : Strict.state := Strict.mkState Scenario.heapNoHeader ∅ ∅.

Definition frozen : Strict.state :=
  Strict.mkState Scenario.heapNoHeader
    {[ (Scenario.export, "total") := Strict.ReadOnly ]} {[ Scenario.export ]}.

Definition str : Strict.state := Strict.mkState Scenario.heapStr ∅ ∅.

Definition emptyBag : Strict.state := Strict.mkState Scenario.heapA ∅ ∅.

(** The order is not extensible and has none of the custom fields. *)
Definition fixedOrder : Strict.state :=
  Strict.mkState Scenario.heapA ∅ {[ Scenario.order ]}.

(** The export has an accessor property [is_fiscal_order] whose setter is the
    host function [1]; every host function throws the string ["boom"]. *)
Definition withSetter : Strict.state :=
  Strict.mkState Scenario.heapNoHeader
    {[ (Scenario.export, "is_fiscal_order") := Strict.Accessor None (Some 1%positive) ]} ∅.

Definition throwing : Strict.fid -> val -> list val -> Strict.M val :=
  fun _ _ _ s => Strict.Throw (Thrown (VStr "boom")) s.

End StrictScenario.

(** ** The heap: reads after writes *)

Section HeapFacts.
Implicit Types (l : loc) (k : string) (x : val) (h : heap).

Lemma hobj_hset l k x l' h :
  hobj l' (hset l k x h) = if decide (l = l') then <[k := x]> (hobj l h) else hobj l' h.
Proof.
  unfold hobj at 1, hset. case_decide as E.
  - subst. by rewrite lookup_insert_eq.
  - by rewrite lookup_insert_ne.
Qed.

Lemma hget_hset l k x l' k' h :
  hget l' k' (hset l k x h) = if decide (l = l' ∧ k = k') then x else hget l' k' h.
Proof.
  unfold hget. rewrite hobj_hset.
  destruct (decide (l = l')) as [->|Hl].
  - destruct (decide (k = k')) as [->|Hk].
    + rewrite lookup_insert_eq. by rewrite decide_True.
    + rewrite lookup_insert_ne by done. rewrite decide_False; [done | tauto].
  - rewrite decide_False; [done | tauto].
Qed.

Lemma hget_hset_eq l k x h : hget l k (hset l k x h) = x.
Proof. rewrite hget_hset. by rewrite decide_True. Qed.

Lemma hget_hset_key l k x l' k' h :
  k ≠ k' → hget l' k' (hset l k x h) = hget l' k' h.
Proof. intros Hk. rewrite hget_hset. rewrite decide_False; [done | tauto]. Qed.

(** A write never removes a property, of any object. *)
Lemma has_prop_hset l k x l' k' h :
  has_prop l' k' h → has_prop l' k' (hset l k x h).
Proof.
  unfold has_prop. rewrite hobj_hset. case_decide as E; [subst | done].
  intros Hs. destruct (decide (k = k')) as [->|Hk].
  - rewrite lookup_insert_eq. eauto.
  - by rewrite lookup_insert_ne.
Qed.

Lemma has_prop_hset_eq l k x h : has_prop l k (hset l k x h).
Proof. unfold has_prop. rewrite hobj_hset, decide_True by done. rewrite lookup_insert_eq. eauto. Qed.

(** Writing twice the same value at the same place is writing it once. *)
Lemma hset_hset_eq l k x y h : hset l k y (hset l k x h) = hset l k y h.
Proof.
  unfold hset at 1. rewrite hobj_hset, decide_True by done.
  unfold hset. by rewrite insert_insert_eq, insert_insert_eq.
Qed.

(** Writes to different keys commute, whether or not the objects differ. *)
Lemma hset_comm l k x l' k' y h :
  k ≠ k' → hset l k x (hset l' k' y h) = hset l' k' y (hset l k x h).
Proof.
  intros Hk. unfold hset at 1 3. rewrite !hobj_hset.
  destruct (decide (l' = l)) as [->|Hl].
  - rewrite decide_True by done. unfold hset.
    rewrite !insert_insert_eq. f_equal. by apply insert_insert_ne.
  - rewrite decide_False by congruence. unfold hset.
    by apply insert_insert_ne.
Qed.

End HeapFacts.

Lemma absent_undefined (l : loc) (k : string) (h : heap) :
  hobj l h !! k = None → hget l k h = VUndef.
Proof. unfold hget. by intros ->. Qed.

(** ** Running the programs *)

Lemma strict_neq_undef (c : val) :
  (if strict_neq c VUndef then c else VBool true) =
  match c with VUndef => VBool true | _ => c end.
Proof. by destruct c. Qed.

Lemma js_or_sentinel (v : val) : sentinel (js_or v (VBool false)).
Proof. unfold sentinel, js_or. destruct (truthy v) eqn:E; auto. Qed.

(** A sentinel-disciplined value is none of the other falsy values. *)
Lemma sentinel_excludes (v : val) :
  sentinel v → v ≠ VUndef ∧ v ≠ VNull ∧ v ≠ VStr "".
Proof. intros Hs. repeat split; intros ->; destruct Hs; discriminate. Qed.

Ltac run := unfold bind, ret, get_prop, set_prop; simpl.

Ltac heap_simpl :=
  repeat first
    [ rewrite hget_hset_eq
    | rewrite hget_hset_key by discriminate ].

(** [setup], first variant: a [TypeError] on a nullish bag, three stores
    otherwise. *)
Lemma ocd_initializeFields_run (this : loc) (vals : val) (h : heap) :
  OrderCompanyData.initializeFields this vals h =
  if nullish vals then Throw TypeError h
  else Ok tt
    (hset this "order_company_data" (js_or (peek vals "order_company_data" h) (VBool false))
      (hset this "non_fiscal_qr_data" (js_or (peek vals "non_fiscal_qr_data" h) (VBool false))
        (hset this "is_fiscal_order"
           (match peek vals "is_fiscal_order" h with
            | VUndef => VBool true
            | _ => peek vals "is_fiscal_order" h
            end) h))).
Proof.
  unfold OrderCompanyData.initializeFields.
  destruct vals; run; try reflexivity.
  rewrite <- strict_neq_undef.
  destruct (strict_neq (hget l "is_fiscal_order" h) VUndef); simpl; by heap_simpl.

Qed.

Lemma cd_initializeFields_run (this : loc) (vals : val) (h : heap) :
  CompanyData.initializeFields this vals h =
  if nullish vals then Throw TypeError h
  else Ok tt
    (hset this "non_fiscal_qr_data" (js_or (peek vals "non_fiscal_qr_data" h) (VBool false))
      (hset this "is_fiscal_order" (js_nullish (peek vals "is_fiscal_order" h) (VBool true))
        (hset this "company_data" (js_or (peek vals "company_data" h) (VBool false)) h))).
Proof.
  unfold CompanyData.initializeFields.
  destruct vals; run; try reflexivity. by heap_simpl.
Qed.

Lemma ocd_setup_run ss (this : loc) (vals r : val) (h h1 : heap) :
  ss this vals h = Ok r h1 →
  OrderCompanyData.setup ss this vals h = OrderCompanyData.initializeFields this vals h1.
Proof. intros Hs. unfold OrderCompanyData.setup, bind. by rewrite Hs. Qed.

Lemma cd_setup_run ss (this : loc) (vals r : val) (h h1 : heap) :
  ss this vals h = Ok r h1 →
  CompanyData.setup ss this vals h = CompanyData.initializeFields this vals h1.
Proof. intros Hs. unfold CompanyData.setup, bind. by rewrite Hs. Qed.

Lemma ocd_buildPrintExport_eq : OrderCompanyData.buildPrintExport = printExport "order_company_data".
Proof. reflexivity. Qed.

Lemma cd_buildPrintExport_eq : CompanyData.buildPrintExport = printExport "company_data".
Proof. reflexivity. Qed.

(** The export body: it returns the very value the host produced, in the
    heap [export_heap], or raises a [TypeError] having stored nothing. *)
Lemma printExport_run (field : string) (this : loc) (result : val) (h : heap) :
  printExport field this result h =
  if export_safe field this result h
  then Ok result (match result with VObj r => export_heap field this r h | _ => h end)
  else Throw TypeError h.
Proof.
  unfold printExport, export_safe, export_heap, override_heap.
  destruct result; run;
    try (destruct (truthy (hget this field h)) eqn:Ed; simpl; rewrite ?Ed; reflexivity).
  destruct (truthy (hget this field h)) eqn:Ed; simpl; rewrite ?Ed; simpl.
  - destruct (truthy (hget l "headerData" h)) eqn:Et; simpl.
    + destruct (hget l "headerData" h); simpl; try reflexivity. by heap_simpl.
    + destruct (hget l "headerData" h); try discriminate; simpl; by heap_simpl.
  - destruct (hget l "headerData" h); simpl; by heap_simpl.
Qed.

Lemma export_for_printing_run_ocd sx (this : loc) (args : list val) (result : val) (h h1 : heap) :
  sx this args h = Ok result h1 →
  OrderCompanyData.export_for_printing sx this args h = printExport "order_company_data" this result h1.
Proof. intros Hs. unfold OrderCompanyData.export_for_printing, bind. by rewrite Hs. Qed.

Lemma export_for_printing_run_cd sx (this : loc) (args : list val) (result : val) (h h1 : heap) :
  sx this args h = Ok result h1 →
  CompanyData.export_for_printing sx this args h = printExport "company_data" this result h1.
Proof. intros Hs. unfold CompanyData.export_for_printing, bind. by rewrite Hs. Qed.

(** The header-data body. *)
Lemma buildReceiptHeaderData_run (order data : val) (h : heap) :
  ReceiptPatch.buildReceiptHeaderData order data h =
  if truthy order then
    match data with
    | VObj d => Ok data (header_heap order d h)
    | _ => Throw TypeError h
    end
  else Ok data h.
Proof.
  unfold ReceiptPatch.buildReceiptHeaderData, header_heap.
  destruct (truthy order) eqn:Eo; [| reflexivity].
  destruct order; try discriminate; destruct data; run; try reflexivity.
  by heap_simpl.
Qed.

Lemma getReceiptHeaderData_run sg (this : loc) (args : list val) (data : val) (h h1 : heap) :
  sg this args h = Ok data h1 →
  ReceiptPatch.getReceiptHeaderData sg this args h =
  ReceiptPatch.buildReceiptHeaderData (nth 0 args VUndef) data h1.
Proof. intros Hs. unfold ReceiptPatch.getReceiptHeaderData, bind. by rewrite Hs. Qed.

(** ** Order construction: [setup] *)

Ltac setup_run Hs :=
  first [ rewrite (ocd_setup_run _ _ _ _ _ _ Hs), ocd_initializeFields_run
        | rewrite (cd_setup_run _ _ _ _ _ _ Hs), cd_initializeFields_run ];
  simpl.

(** C2. Once the host's [setup] has returned, a bag without
    [is_fiscal_order] gives the order [is_fiscal_order = true], a bag without
    [non_fiscal_qr_data] gives [false], a bag without the override field
    gives [false]; for the empty bag all three hold.  Both variants. *)
Theorem setup_defaults (ss : loc → val → M val) (this bag : loc) (r : val) (h h1 : heap) :
  ss this (VObj bag) h = Ok r h1 →
  (∃ h2, OrderCompanyData.setup ss this (VObj bag) h = Ok tt h2 ∧
     (hobj bag h1 !! "is_fiscal_order" = None → hget this "is_fiscal_order" h2 = VBool true) ∧
     (hobj bag h1 !! "non_fiscal_qr_data" = None → hget this "non_fiscal_qr_data" h2 = VBool false) ∧
     (hobj bag h1 !! "order_company_data" = None → hget this "order_company_data" h2 = VBool false) ∧
     (hobj bag h1 = ∅ →
        hget this "is_fiscal_order" h2 = VBool true ∧
        hget this "non_fiscal_qr_data" h2 = VBool false ∧
        hget this "order_company_data" h2 = VBool false)) ∧
  (∃ h2, CompanyData.setup ss this (VObj bag) h = Ok tt h2 ∧
     (hobj bag h1 !! "is_fiscal_order" = None → hget this "is_fiscal_order" h2 = VBool true) ∧
     (hobj bag h1 !! "non_fiscal_qr_data" = None → hget this "non_fiscal_qr_data" h2 = VBool false) ∧
     (hobj bag h1 !! "company_data" = None → hget this "company_data" h2 = VBool false) ∧
     (hobj bag h1 = ∅ →
        hget this "is_fiscal_order" h2 = VBool true ∧
        hget this "non_fiscal_qr_data" h2 = VBool false ∧
        hget this "company_data" h2 = VBool false)).
Proof.
  intros Hs.
  assert (Hempty : ∀ k, hobj bag h1 = ∅ → hget bag k h1 = VUndef).
  { intros k E. apply absent_undefined. rewrite E. apply lookup_empty. }
  split; eexists; (split; [setup_run Hs; reflexivity |]);
    (split; [| split; [| split]]); intros E; repeat split; heap_simpl;
    rewrite ?(absent_undefined _ _ _ E), ?Hempty by exact E; reflexivity.
Qed.

Lemma setup_defaults_witness :
  ∃ h2, CompanyData.setup idle_host Scenario.order (VObj Scenario.bag) Scenario.heapA = Ok tt h2 ∧
    hget Scenario.order "is_fiscal_order" h2 = VBool true ∧
    hget Scenario.order "non_fiscal_qr_data" h2 = VBool false ∧
    hget Scenario.order "company_data" h2 = VBool false.
Proof.
  destruct (setup_defaults idle_host Scenario.order Scenario.bag VUndef
              Scenario.heapA Scenario.heapA eq_refl)
    as [_ (h2 & Hrun & _ & _ & _ & Hall)].
  exists h2. split; [exact Hrun |]. apply Hall. reflexivity.
Defined.

(** C5. A bag carrying [is_fiscal_order: false] gives the order
    [is_fiscal_order = false], in both variants. *)
Theorem setup_keeps_explicit_false (ss : loc → val → M val) (this bag : loc) (r : val) (h h1 : heap) :
  ss this (VObj bag) h = Ok r h1 →
  hobj bag h1 !! "is_fiscal_order" = Some (VBool false) →
  (∃ h2, OrderCompanyData.setup ss this (VObj bag) h = Ok tt h2 ∧
         hget this "is_fiscal_order" h2 = VBool false) ∧
  (∃ h2, CompanyData.setup ss this (VObj bag) h = Ok tt h2 ∧
         hget this "is_fiscal_order" h2 = VBool false).
Proof.
  intros Hs Hf.
  assert (Hg : hget bag "is_fiscal_order" h1 = VBool false) by (unfold hget; by rewrite Hf).
  split; eexists; (split; [setup_run Hs; reflexivity |]);
    heap_simpl; by rewrite Hg.
Qed.

Lemma setup_keeps_explicit_false_witness :
  (∃ h2, OrderCompanyData.setup idle_host Scenario.order (VObj Scenario.bag) Scenario.heapB = Ok tt h2 ∧
         hget Scenario.order "is_fiscal_order" h2 = VBool false) ∧
  (∃ h2, CompanyData.setup idle_host Scenario.order (VObj Scenario.bag) Scenario.heapB = Ok tt h2 ∧
         hget Scenario.order "is_fiscal_order" h2 = VBool false).
Proof.
  apply (setup_keeps_explicit_false idle_host Scenario.order Scenario.bag VUndef
           Scenario.heapB Scenario.heapB eq_refl).
  reflexivity.
Defined.

(** C9. The two variants of [setup] agree when the bag's [is_fiscal_order]
    is [undefined] (both store [true]); when it is [null] the first variant
    stores [null] and the second stores [true], and such a bag exists. *)
Theorem setup_variants_default (ss : loc → val → M val) (this bag : loc) (r : val) (h h1 : heap) :
  ss this (VObj bag) h = Ok r h1 →
  (hget bag "is_fiscal_order" h1 = VUndef →
     ∃ h2 h2',
       OrderCompanyData.setup ss this (VObj bag) h = Ok tt h2 ∧
       CompanyData.setup ss this (VObj bag) h = Ok tt h2' ∧
       hget this "is_fiscal_order" h2 = VBool true ∧
       hget this "is_fiscal_order" h2' = VBool true) ∧
  (hget bag "is_fiscal_order" h1 = VNull →
     ∃ h2 h2',
       OrderCompanyData.setup ss this (VObj bag) h = Ok tt h2 ∧
       CompanyData.setup ss this (VObj bag) h = Ok tt h2' ∧
       hget this "is_fiscal_order" h2 = VNull ∧
       hget this "is_fiscal_order" h2' = VBool true) ∧
  (∃ h0 h2 h2',
     hget Scenario.bag "is_fiscal_order" h0 = VNull ∧
     OrderCompanyData.setup idle_host Scenario.order (VObj Scenario.bag) h0 = Ok tt h2 ∧
     CompanyData.setup idle_host Scenario.order (VObj Scenario.bag) h0 = Ok tt h2' ∧
     hget Scenario.order "is_fiscal_order" h2 ≠ hget Scenario.order "is_fiscal_order" h2').
Proof.
  intros Hs. split; [| split].
  - intros E. do 2 eexists.
    split; [setup_run Hs; reflexivity |].
    split; [setup_run Hs; reflexivity |].
    heap_simpl. by rewrite E.
  - intros E. do 2 eexists.
    split; [setup_run Hs; reflexivity |].
    split; [setup_run Hs; reflexivity |].
    heap_simpl. by rewrite E.
  - exists Scenario.heapNull. do 2 eexists.
    split; [reflexivity |].
    split; [by setup_run (eq_refl : idle_host Scenario.order (VObj Scenario.bag) Scenario.heapNull = Ok VUndef _) |].
    split; [by setup_run (eq_refl : idle_host Scenario.order (VObj Scenario.bag) Scenario.heapNull = Ok VUndef _) |].
    heap_simpl. vm_compute. discriminate.
Qed.

Lemma setup_variants_default_witness :
  ∃ h2 h2',
    OrderCompanyData.setup idle_host Scenario.order (VObj Scenario.bag) Scenario.heapNull = Ok tt h2 ∧
    CompanyData.setup idle_host Scenario.order (VObj Scenario.bag) Scenario.heapNull = Ok tt h2' ∧
    hget Scenario.order "is_fiscal_order" h2 = VNull ∧
    hget Scenario.order "is_fiscal_order" h2' = VBool true.
Proof.
  apply (setup_variants_default idle_host Scenario.order Scenario.bag VUndef
           Scenario.heapNull Scenario.heapNull eq_refl).
  reflexivity.
Defined.

(** ** Header data: [getReceiptHeaderData] *)

(** The augmentation of the export leaves every field of the order it runs
    on as it was, except possibly [company]. *)
Lemma export_heap_this (field : string) (this r : loc) (k : string) (h : heap) :
  k ≠ "company" →
  hget this k (export_heap field this r h) = hget this k h.
Proof.
  intros Hk. unfold export_heap, override_heap.
  rewrite hget_hset. case_decide as E1; [by destruct E1 as [-> <-] |].
  rewrite hget_hset. case_decide as E2; [by destruct E2 as [-> <-] |].
  destruct (hget r "headerData" h); try done.
  destruct (truthy (hget this field h)); try done.
  by rewrite hget_hset_key by congruence.
Qed.

(** C3. Once the host has built its header data (an object), and for an
    order passed as first argument (any truthy value),
    [getReceiptHeaderData] returns that object
    with both fields present: the order's value when it is truthy, [false]
    otherwise, in particular when the order has no such field.  The same
    values are stored when the export augmentation of either variant has run
    on that order beforehand. *)
Theorem header_fields_always_set (sg : loc → list val → M val) (this : loc)
    (order : val) (rest : list val) (d : loc) (h h1 : heap) :
  truthy order = true →
  sg this (order :: rest) h = Ok (VObj d) h1 →
  ∃ h2,
    ReceiptPatch.getReceiptHeaderData sg this (order :: rest) h = Ok (VObj d) h2 ∧
    has_prop d "is_fiscal_order" h2 ∧ has_prop d "non_fiscal_qr_data" h2 ∧
    hget d "is_fiscal_order" h2 = js_or (peek order "is_fiscal_order" h1) (VBool false) ∧
    hget d "non_fiscal_qr_data" h2 = js_or (peek order "non_fiscal_qr_data" h1) (VBool false) ∧
    (peek order "is_fiscal_order" h1 = VUndef → hget d "is_fiscal_order" h2 = VBool false) ∧
    (peek order "non_fiscal_qr_data" h1 = VUndef → hget d "non_fiscal_qr_data" h2 = VBool false) ∧
    (∀ (o : loc) (base : val) (hx : heap),
       order = VObj o →
       OrderCompanyData.buildPrintExport o base h1 = Ok base hx ∨
       CompanyData.buildPrintExport o base h1 = Ok base hx →
       ∃ h3,
         ReceiptPatch.buildReceiptHeaderData order (VObj d) hx = Ok (VObj d) h3 ∧
         hget d "is_fiscal_order" h3 = hget d "is_fiscal_order" h2 ∧
         hget d "non_fiscal_qr_data" h3 = hget d "non_fiscal_qr_data" h2).
Proof.
  intros Ho Hs. eexists.
  split.
  { rewrite (getReceiptHeaderData_run _ _ _ _ _ _ Hs), buildReceiptHeaderData_run.
    simpl. by rewrite Ho. }
  unfold header_heap.
  split; [apply has_prop_hset, has_prop_hset_eq |].
  split; [apply has_prop_hset_eq |].
  split; [by heap_simpl |]. split; [by heap_simpl |].
  split; [intros E; heap_simpl; by rewrite E |].
  split; [intros E; heap_simpl; by rewrite E |].
  intros o base hx Eo Hx. eexists.
  split; [rewrite buildReceiptHeaderData_run, Ho; reflexivity |].
  assert (Hk : ∀ k, k ≠ "company" → hget o k hx = hget o k h1).
  { intros k Hk.
    rewrite ocd_buildPrintExport_eq, cd_buildPrintExport_eq, !printExport_run in Hx.
    destruct Hx as [Hx | Hx];
      destruct (export_safe _ o base h1); try discriminate;
      injection Hx as <-; (destruct base; [done..|]);
      by apply export_heap_this. }
  unfold header_heap. heap_simpl. rewrite Eo. simpl.
  by rewrite !Hk by discriminate.
Qed.

Lemma header_fields_always_set_witness :
  ∃ h2,
    ReceiptPatch.getReceiptHeaderData (const_host (VObj Scenario.header)) Scenario.store
      [VObj Scenario.order] Scenario.heapNoHeader = Ok (VObj Scenario.header) h2 ∧
    hget Scenario.header "is_fiscal_order" h2 = VBool true ∧
    hget Scenario.header "non_fiscal_qr_data" h2 = VBool false.
Proof.
  destruct (header_fields_always_set (const_host (VObj Scenario.header)) Scenario.store
              (VObj Scenario.order) [] Scenario.header
              Scenario.heapNoHeader Scenario.heapNoHeader eq_refl eq_refl)
    as (h2 & Hrun & _ & _ & Hf & Hq & _).
  exists h2. split; [exact Hrun |]. split; [exact Hf | exact Hq].
Defined.

(** C10. After [setup] on a bag that is neither [undefined] nor [null],
    [non_fiscal_qr_data] and the override field of the order are the bag's
    value when that is truthy and exactly [false] otherwise (so never
    [undefined], [null] or the empty string); [getReceiptHeaderData] stores
    [is_fiscal_order] and [non_fiscal_qr_data] under the same discipline. *)
Theorem sentinel_invariant (ss : loc → val → M val) (sg : loc → list val → M val)
    (this : loc) (vals r : val) (h h1 : heap)
    (store : loc) (order : val) (rest : list val) (d : loc) (g g1 : heap) :
  nullish vals = false →
  ss this vals h = Ok r h1 →
  truthy order = true →
  sg store (order :: rest) g = Ok (VObj d) g1 →
  (∃ h2, OrderCompanyData.setup ss this vals h = Ok tt h2 ∧
     sentinel (hget this "non_fiscal_qr_data" h2) ∧
     sentinel (hget this "order_company_data" h2) ∧
     hget this "non_fiscal_qr_data" h2 = js_or (peek vals "non_fiscal_qr_data" h1) (VBool false) ∧
     hget this "order_company_data" h2 = js_or (peek vals "order_company_data" h1) (VBool false) ∧
     (peek vals "non_fiscal_qr_data" h1 = VStr "" → hget this "non_fiscal_qr_data" h2 = VBool false)) ∧
  (∃ h2, CompanyData.setup ss this vals h = Ok tt h2 ∧
     sentinel (hget this "non_fiscal_qr_data" h2) ∧
     sentinel (hget this "company_data" h2) ∧
     hget this "non_fiscal_qr_data" h2 = js_or (peek vals "non_fiscal_qr_data" h1) (VBool false) ∧
     hget this "company_data" h2 = js_or (peek vals "company_data" h1) (VBool false) ∧
     (peek vals "non_fiscal_qr_data" h1 = VStr "" → hget this "non_fiscal_qr_data" h2 = VBool false)) ∧
  (∃ g2, ReceiptPatch.getReceiptHeaderData sg store (order :: rest) g = Ok (VObj d) g2 ∧
     sentinel (hget d "is_fiscal_order" g2) ∧
     sentinel (hget d "non_fiscal_qr_data" g2) ∧
     hget d "is_fiscal_order" g2 = js_or (peek order "is_fiscal_order" g1) (VBool false) ∧
     hget d "non_fiscal_qr_data" g2 = js_or (peek order "non_fiscal_qr_data" g1) (VBool false)).
Proof.
  intros Hv Hs Ho Hg.
  split; [| split]; eexists.
  - split; [setup_run Hs; by rewrite Hv |].
    heap_simpl. repeat split; try apply js_or_sentinel.
    by intros ->.
  - split; [setup_run Hs; by rewrite Hv |].
    heap_simpl. repeat split; try apply js_or_sentinel.
    by intros ->.
  - split.
    { rewrite (getReceiptHeaderData_run _ _ _ _ _ _ Hg), buildReceiptHeaderData_run.
      simpl. by rewrite Ho. }
    unfold header_heap. heap_simpl. repeat split; apply js_or_sentinel.
Qed.

Lemma sentinel_invariant_witness :
  ∃ h2, CompanyData.setup idle_host Scenario.order (VObj Scenario.bag) Scenario.heapB = Ok tt h2 ∧
    hget Scenario.order "non_fiscal_qr_data" h2 = VStr "QR123" ∧
    hget Scenario.order "company_data" h2 = VBool false.
Proof.
  destruct (sentinel_invariant idle_host (const_host (VObj Scenario.header))
              Scenario.order (VObj Scenario.bag) VUndef Scenario.heapB Scenario.heapB
              Scenario.store (VObj Scenario.order) [] Scenario.header
              Scenario.heapNoHeader Scenario.heapNoHeader
              eq_refl eq_refl eq_refl eq_refl)
    as (_ & (h2 & Hrun & _ & _ & Hq & Hc & _) & _).
  exists h2. split; [exact Hrun |]. split; [exact Hq | exact Hc].
Defined.

(** ** The printable export: [export_for_printing] *)

Lemma hobj_lookup_hset (l : loc) (k : string) (x : val) (l' : loc) (k' : string) (h : heap) :
  hobj l' (hset l k x h) !! k' =
  if decide (l = l' ∧ k = k') then Some x else hobj l' h !! k'.
Proof.
  rewrite hobj_hset. destruct (decide (l = l')) as [->|Hl].
  - destruct (decide (k = k')) as [->|Hk].
    + rewrite lookup_insert_eq. by rewrite decide_True.
    + rewrite lookup_insert_ne by done. rewrite decide_False; [done | tauto].
  - rewrite decide_False; [done | tauto].
Qed.

Lemma superset_refl (h : heap) : superset h h.
Proof. by intros l k. Qed.

Lemma superset_hset (l : loc) (k : string) (x : val) (h h' : heap) :
  superset h h' → superset h (hset l k x h').
Proof. intros Hs l' k' Hp. by apply has_prop_hset, Hs. Qed.

Lemma override_heap_superset (field : string) (this r : loc) (h : heap) :
  superset h (override_heap field this r h).
Proof.
  unfold override_heap. destruct (hget r "headerData" h); try apply superset_refl.
  destruct (truthy _); [apply superset_hset |]; apply superset_refl.
Qed.

(** What the override step stores, when it is taken. *)
Lemma override_heap_taken (field : string) (this r hd : loc) (h : heap) :
  hget r "headerData" h = VObj hd →
  truthy (hget this field h) = true →
  override_heap field this r h = hset hd "company" (hget this field h) h.
Proof. unfold override_heap. by intros -> ->. Qed.

(** When the order has no override, or the export no [headerData], the
    step is skipped. *)
Lemma override_heap_skipped (field : string) (this r : loc) (h : heap) :
  truthy (hget this field h) = false ∨ truthy (hget r "headerData" h) = false →
  override_heap field this r h = h.
Proof.
  unfold override_heap. intros [E | E].
  - rewrite E. by destruct (hget r "headerData" h).
  - by destruct (hget r "headerData" h).
Qed.

Lemma override_heap_key (field : string) (this r l : loc) (k : string) (h : heap) :
  k ≠ "company" → hobj l (override_heap field this r h) !! k = hobj l h !! k.
Proof.
  intros Hk. unfold override_heap. destruct (hget r "headerData" h); try done.
  destruct (truthy _); [| done].
  rewrite hobj_lookup_hset, decide_False; [done |]. intros [_ E]. by apply Hk.
Qed.

Lemma export_heap_key (field : string) (this r l : loc) (k : string) (h : heap) :
  k ≠ "is_fiscal_order" → k ≠ "non_fiscal_qr_data" →
  hobj l (export_heap field this r h) !! k = hobj l (override_heap field this r h) !! k.
Proof.
  intros H1 H2. unfold export_heap.
  rewrite !hobj_lookup_hset, !decide_False; [done | |]; intros [_ E]; by subst.
Qed.

Lemma export_heap_superset (field : string) (this r : loc) (h : heap) :
  superset h (export_heap field this r h).
Proof. unfold export_heap. do 2 apply superset_hset. apply override_heap_superset. Qed.

(** The frame of the export augmentation. *)
Lemma export_heap_frame (field : string) (this r : loc) (h : heap) :
  unchanged_outside
    (λ l k, (l = r ∧ (k = "is_fiscal_order" ∨ k = "non_fiscal_qr_data")) ∨
            (hget r "headerData" h = VObj l ∧ k = "company" ∧
             truthy (hget this field h) = true))
    h (export_heap field this r h).
Proof.
  intros l k Hn. unfold export_heap.
  rewrite !hobj_lookup_hset.
  rewrite decide_False by (intros [-> <-]; apply Hn; left; auto).
  rewrite decide_False by (intros [-> <-]; apply Hn; left; auto).
  unfold override_heap.
  destruct (hget r "headerData" h) as [| | | | | | |hd] eqn:Eh; try done.
  destruct (truthy (hget this field h)) eqn:Ed; [| done].
  rewrite hobj_lookup_hset, decide_False; [done |].
  intros [-> <-]. apply Hn. right. auto.
Qed.

Lemma export_safe_object (field : string) (this r : loc) (h : heap) :
  headerData_ok r h → export_safe field this (VObj r) h = true.
Proof.
  unfold headerData_ok, export_safe. intros [-> | ->]; simpl.
  - apply orb_true_r.
  - by rewrite orb_true_r.
Qed.

Lemma printExport_object (field : string) (this r : loc) (h : heap) :
  headerData_ok r h →
  printExport field this (VObj r) h = Ok (VObj r) (export_heap field this r h).
Proof. intros Hok. by rewrite printExport_run, export_safe_object. Qed.

(** The override step in the common shape: the export's [headerData] keeps
    pointing to the same object, whose [company] is now the order's
    override value itself; the order keeps its override, and the override
    record is stored as it is. *)
Lemma printExport_override (field : string) (this r hd : loc) (h : heap) :
  field ≠ "company" →
  hget r "headerData" h = VObj hd →
  truthy (hget this field h) = true →
  ∃ h2, printExport field this (VObj r) h = Ok (VObj r) h2 ∧
    hget r "headerData" h2 = VObj hd ∧
    hget hd "company" h2 = hget this field h ∧
    hget this field h2 = hget this field h ∧
    (∀ c, hget this field h = VObj c → c ≠ hd → c ≠ r → hobj c h2 = hobj c h).
Proof.
  intros Hf Hh Hd. eexists. split.
  { apply printExport_object. left. by rewrite Hh. }
  split; [| split; [| split]].
  - unfold export_heap. heap_simpl. rewrite (override_heap_taken _ _ _ _ _ Hh Hd).
    by heap_simpl.
  - unfold export_heap. heap_simpl. rewrite (override_heap_taken _ _ _ _ _ Hh Hd).
    by heap_simpl.
  - by apply export_heap_this.
  - intros c _ Hc1 Hc2. unfold export_heap.
    rewrite !hobj_hset, !decide_False by congruence.
    rewrite (override_heap_taken _ _ _ _ _ Hh Hd).
    by rewrite hobj_hset, decide_False by congruence.
Qed.

(** C1. When the order's override field is truthy and the host's export
    carries a [headerData] object, [export_for_printing] returns the host's
    export with [headerData.company] equal to the override value itself: for
    a record, the very same object, none of whose fields is altered.  Both
    variants. *)
Theorem export_company_override (sx : loc → list val → M val) (this : loc)
    (args : list val) (r hd : loc) (h h1 : heap) :
  sx this args h = Ok (VObj r) h1 →
  hget r "headerData" h1 = VObj hd →
  (truthy (hget this "order_company_data" h1) = true →
   ∃ h2, OrderCompanyData.export_for_printing sx this args h = Ok (VObj r) h2 ∧
     hget r "headerData" h2 = VObj hd ∧
     hget hd "company" h2 = hget this "order_company_data" h1 ∧
     hget this "order_company_data" h2 = hget this "order_company_data" h1 ∧
     (∀ c, hget this "order_company_data" h1 = VObj c → c ≠ hd → c ≠ r →
           hobj c h2 = hobj c h1)) ∧
  (truthy (hget this "company_data" h1) = true →
   ∃ h2, CompanyData.export_for_printing sx this args h = Ok (VObj r) h2 ∧
     hget r "headerData" h2 = VObj hd ∧
     hget hd "company" h2 = hget this "company_data" h1 ∧
     hget this "company_data" h2 = hget this "company_data" h1 ∧
     (∀ c, hget this "company_data" h1 = VObj c → c ≠ hd → c ≠ r →
           hobj c h2 = hobj c h1)).
Proof.
  intros Hs Hh. split; intros Hd.
  - rewrite (export_for_printing_run_ocd _ _ _ _ _ _ Hs).
    by apply printExport_override.
  - rewrite (export_for_printing_run_cd _ _ _ _ _ _ Hs).
    by apply printExport_override.
Qed.

(** Without override the export augmentation stores the two custom fields
    on the export and nothing else. *)
Lemma printExport_no_override (field : string) (this r : loc) (h : heap) :
  hget this field h = VBool false →
  ∃ h2, printExport field this (VObj r) h = Ok (VObj r) h2 ∧
    hget r "headerData" h2 = hget r "headerData" h ∧
    (∀ l, hobj l h2 !! "company" = hobj l h !! "company") ∧
    hget r "is_fiscal_order" h2 = hget this "is_fiscal_order" h ∧
    hget r "non_fiscal_qr_data" h2 = hget this "non_fiscal_qr_data" h ∧
    (∀ l, l ≠ r → hobj l h2 = hobj l h).
Proof.
  intros Hd. eexists. split.
  { rewrite printExport_run. unfold export_safe. by rewrite Hd. }
  assert (Hskip : override_heap field this r h = h).
  { apply override_heap_skipped. left. by rewrite Hd. }
  unfold export_heap. rewrite Hskip.
  repeat split; try by heap_simpl.
  - intros l. by rewrite !hobj_lookup_hset, !decide_False by (by intros [_ ?]).
  - intros l Hl. by rewrite !hobj_hset, !decide_False by congruence.
Qed.

Lemma export_company_override_witness :
  let h1 := Scenario.final (CompanyData.setup idle_host Scenario.order (VObj Scenario.bag)
                              (Scenario.heapC "company_data")) in
  ∃ h2, CompanyData.export_for_printing (const_host (VObj Scenario.export))
          Scenario.order [] h1 = Ok (VObj Scenario.export) h2 ∧
    hget Scenario.header "company" h2 = VObj Scenario.new_co ∧
    hget Scenario.new_co "name" h2 = VStr "New Co".
Proof.
  intros h1.
  destruct (export_company_override (const_host (VObj Scenario.export)) Scenario.order []
              Scenario.export Scenario.header h1 h1 eq_refl eq_refl) as [_ Hcd].
  destruct (Hcd eq_refl) as (h2 & Hrun & _ & Hc & _ & Hrec).
  exists h2. split; [exact Hrun |]. split; [exact Hc |].
  unfold hget. rewrite (Hrec Scenario.new_co); [reflexivity | reflexivity | discriminate..].
Defined.

(** C4. When the order's override field is [false], [export_for_printing]
    returns the host's export with [headerData] and every [company] property
    as the host left them, every object other than the export untouched, and
    the order's [is_fiscal_order] and [non_fiscal_qr_data] copied onto the
    export.  Scenario B run from [setup] on gives exactly the expected
    export.  Both variants. *)
Theorem export_without_override (sx : loc → list val → M val) (this : loc)
    (args : list val) (r : loc) (h h1 : heap) :
  sx this args h = Ok (VObj r) h1 →
  (hget this "order_company_data" h1 = VBool false →
   ∃ h2, OrderCompanyData.export_for_printing sx this args h = Ok (VObj r) h2 ∧
     hget r "headerData" h2 = hget r "headerData" h1 ∧
     (∀ l, hobj l h2 !! "company" = hobj l h1 !! "company") ∧
     hget r "is_fiscal_order" h2 = hget this "is_fiscal_order" h1 ∧
     hget r "non_fiscal_qr_data" h2 = hget this "non_fiscal_qr_data" h1 ∧
     (∀ l, l ≠ r → hobj l h2 = hobj l h1)) ∧
  (hget this "company_data" h1 = VBool false →
   ∃ h2, CompanyData.export_for_printing sx this args h = Ok (VObj r) h2 ∧
     hget r "headerData" h2 = hget r "headerData" h1 ∧
     (∀ l, hobj l h2 !! "company" = hobj l h1 !! "company") ∧
     hget r "is_fiscal_order" h2 = hget this "is_fiscal_order" h1 ∧
     hget r "non_fiscal_qr_data" h2 = hget this "non_fiscal_qr_data" h1 ∧
     (∀ l, l ≠ r → hobj l h2 = hobj l h1)) ∧
  (∀ variant : bool,
     let h1 := Scenario.final
                 ((if variant then OrderCompanyData.setup else CompanyData.setup)
                    idle_host Scenario.order (VObj Scenario.bag) Scenario.heapB) in
     ∃ h2,
       (if variant then OrderCompanyData.export_for_printing
        else CompanyData.export_for_printing)
         (const_host (VObj Scenario.export)) Scenario.order [] h1
       = Ok (VObj Scenario.export) h2 ∧
       hobj Scenario.export h2 =
         {[ "headerData" := VObj Scenario.header;
            "is_fiscal_order" := VBool false;
            "non_fiscal_qr_data" := VStr "QR123" ]} ∧
       hobj Scenario.header h2 = {[ "company" := VObj Scenario.old_co ]} ∧
       hobj Scenario.old_co h2 = {[ "name" := VStr "Old Co" ]}).
Proof.
  intros Hs. split; [| split].
  - intros Hd. rewrite (export_for_printing_run_ocd _ _ _ _ _ _ Hs).
    by apply printExport_no_override.
  - intros Hd. rewrite (export_for_printing_run_cd _ _ _ _ _ _ Hs).
    by apply printExport_no_override.
  - intros [|]; eexists; (split; [vm_compute; reflexivity |]);
      (split; [| split]); vm_compute; reflexivity.
Qed.

Lemma export_without_override_witness :
  let h1 := Scenario.final (CompanyData.setup idle_host Scenario.order (VObj Scenario.bag)
                              Scenario.heapB) in
  ∃ h2, CompanyData.export_for_printing (const_host (VObj Scenario.export))
          Scenario.order [] h1 = Ok (VObj Scenario.export) h2 ∧
    hget Scenario.export "headerData" h2 = VObj Scenario.header ∧
    hget Scenario.export "is_fiscal_order" h2 = VBool false ∧
    hget Scenario.export "non_fiscal_qr_data" h2 = VStr "QR123".
Proof.
  intros h1.
  destruct (export_without_override (const_host (VObj Scenario.export)) Scenario.order []
              Scenario.export h1 h1 eq_refl) as (_ & Hcd & _).
  destruct (Hcd eq_refl) as (h2 & Hrun & Hh & _ & Hf & Hq & _).
  exists h2. split; [exact Hrun |]. split; [exact Hh |]. split; [exact Hf | exact Hq].
Defined.

Lemma header_heap_frame (order : val) (d : loc) (h : heap) :
  superset h (header_heap order d h) ∧
  unchanged_outside
    (λ l k, l = d ∧ (k = "is_fiscal_order" ∨ k = "non_fiscal_qr_data"))
    h (header_heap order d h).
Proof.
  unfold header_heap. split.
  - do 2 apply superset_hset. apply superset_refl.
  - intros l k Hn. rewrite !hobj_lookup_hset.
    rewrite !decide_False; [done | |]; intros [-> <-]; apply Hn; auto.
Qed.

Lemma unchanged_outside_refl (touched : loc → string → Prop) (h : heap) :
  unchanged_outside touched h h.
Proof. by intros l k _. Qed.

(** Whenever the export body returns, it returns the host's export and has
    respected the frame. *)
Lemma printExport_frame (field : string) (this : loc) (base v : val) (h h2 : heap) :
  printExport field this base h = Ok v h2 →
  v = base ∧ superset h h2 ∧
  unchanged_outside
    (λ l k, (base = VObj l ∧ (k = "is_fiscal_order" ∨ k = "non_fiscal_qr_data")) ∨
            (peek base "headerData" h = VObj l ∧ k = "company" ∧
             truthy (hget this field h) = true))
    h h2.
Proof.
  rewrite printExport_run. destruct (export_safe field this base h); [| done].
  destruct base as [| | | | | | |r]; intros [= <- <-];
    (split; [done |]); try (split; [apply superset_refl | apply unchanged_outside_refl]).
  split; [apply export_heap_superset |].
  intros l k Hn. apply export_heap_frame. intros [[-> Hk] | Hc]; apply Hn; auto.
Qed.

Lemma buildReceiptHeaderData_frame (order data v : val) (g g2 : heap) :
  ReceiptPatch.buildReceiptHeaderData order data g = Ok v g2 →
  v = data ∧ superset g g2 ∧
  unchanged_outside
    (λ l k, data = VObj l ∧ (k = "is_fiscal_order" ∨ k = "non_fiscal_qr_data"))
    g g2.
Proof.
  rewrite buildReceiptHeaderData_run. destruct (truthy order).
  - destruct data as [| | | | | | |d]; try done. intros [= <- <-].
    split; [done |]. destruct (header_heap_frame order d g) as [Hs Hu].
    split; [done |]. intros l k Hn. apply Hu. intros [-> Hk]. apply Hn. auto.
  - intros [= <- <-]. split; [done |].
    split; [apply superset_refl | apply unchanged_outside_refl].
Qed.

(** C6. Whenever an extension point returns, it hands back the host's own
    object, and between the heap the host left and the heap it leaves no
    property of any object is removed; the export augmentation changes
    nothing but [is_fiscal_order] and [non_fiscal_qr_data] of the export and,
    when the order has an override, [company] of the export's [headerData];
    the header-data augmentation changes nothing but [is_fiscal_order] and
    [non_fiscal_qr_data] of the header data.  They do return when the host's
    export is an object with a usable [headerData], respectively when the
    host's header data is an object. *)
Theorem augmentation_superset (sx sg : loc → list val → M val) (this store : loc)
    (args gargs : list val) (base data : val) (h h1 g g1 : heap) :
  sx this args h = Ok base h1 →
  sg store gargs g = Ok data g1 →
  (∀ v h2, OrderCompanyData.export_for_printing sx this args h = Ok v h2 →
     v = base ∧ superset h1 h2 ∧
     unchanged_outside
       (λ l k, (base = VObj l ∧ (k = "is_fiscal_order" ∨ k = "non_fiscal_qr_data")) ∨
               (peek base "headerData" h1 = VObj l ∧ k = "company" ∧
                truthy (hget this "order_company_data" h1) = true))
       h1 h2) ∧
  (∀ v h2, CompanyData.export_for_printing sx this args h = Ok v h2 →
     v = base ∧ superset h1 h2 ∧
     unchanged_outside
       (λ l k, (base = VObj l ∧ (k = "is_fiscal_order" ∨ k = "non_fiscal_qr_data")) ∨
               (peek base "headerData" h1 = VObj l ∧ k = "company" ∧
                truthy (hget this "company_data" h1) = true))
       h1 h2) ∧
  (∀ v g2, ReceiptPatch.getReceiptHeaderData sg store gargs g = Ok v g2 →
     v = data ∧ superset g1 g2 ∧
     unchanged_outside
       (λ l k, data = VObj l ∧ (k = "is_fiscal_order" ∨ k = "non_fiscal_qr_data"))
       g1 g2) ∧
  (∀ r, base = VObj r → headerData_ok r h1 →
     (∃ h2, OrderCompanyData.export_for_printing sx this args h = Ok base h2) ∧
     (∃ h2, CompanyData.export_for_printing sx this args h = Ok base h2)) ∧
  (∀ d, data = VObj d →
     ∃ g2, ReceiptPatch.getReceiptHeaderData sg store gargs g = Ok data g2).
Proof.
  intros Hs Hg.
  rewrite (export_for_printing_run_ocd _ _ _ _ _ _ Hs),
          (export_for_printing_run_cd _ _ _ _ _ _ Hs),
          (getReceiptHeaderData_run _ _ _ _ _ _ Hg).
  split; [| split; [| split; [| split]]].
  - intros v h2. apply printExport_frame.
  - intros v h2. apply printExport_frame.
  - intros v g2. apply buildReceiptHeaderData_frame.
  - intros r -> Hok. rewrite !printExport_object by done. eauto.
  - intros d ->. rewrite buildReceiptHeaderData_run. destruct (truthy _); eauto.
Qed.

Lemma augmentation_superset_witness :
  ∃ h2, CompanyData.export_for_printing (const_host (VObj Scenario.export))
          Scenario.order [] Scenario.heapNoHeader = Ok (VObj Scenario.export) h2 ∧
    superset Scenario.heapNoHeader h2 ∧
    hobj Scenario.export h2 !! "total" = Some (VStr "12.00").
Proof.
  destruct (augmentation_superset
              (const_host (VObj Scenario.export)) (const_host (VObj Scenario.header))
              Scenario.order Scenario.store [] [VObj Scenario.order]
              (VObj Scenario.export) (VObj Scenario.header)
              Scenario.heapNoHeader Scenario.heapNoHeader
              Scenario.heapNoHeader Scenario.heapNoHeader
              eq_refl eq_refl)
    as (_ & Hframe & _ & Hret & _).
  destruct (Hret Scenario.export eq_refl (or_intror eq_refl)) as [_ [h2 Hrun]].
  destruct (Hframe _ _ Hrun) as (_ & Hsup & Hun).
  exists h2. split; [exact Hrun |]. split; [exact Hsup |].
  rewrite Hun; [reflexivity |].
  intros [[_ [E | E]] | (_ & E & _)]; discriminate E.
Defined.

(** ** Idempotence of the export augmentation *)

Lemma export_heap_read (field : string) (this r l : loc) (k : string) (h : heap) :
  k ≠ "company" → k ≠ "is_fiscal_order" → k ≠ "non_fiscal_qr_data" →
  hget l k (export_heap field this r h) = hget l k h.
Proof.
  intros H1 H2 H3. unfold hget.
  by rewrite export_heap_key, override_heap_key.
Qed.

(** The two stores of the custom fields, done again, change nothing. *)
Lemma custom_stores_again (r : loc) (a q : val) (h : heap) :
  let h' := hset r "non_fiscal_qr_data" q (hset r "is_fiscal_order" a h) in
  hset r "non_fiscal_qr_data" q (hset r "is_fiscal_order" a h') = h'.
Proof.
  simpl.
  rewrite (hset_comm r "is_fiscal_order" a r "non_fiscal_qr_data" q) by discriminate.
  by rewrite !hset_hset_eq.
Qed.

Lemma export_heap_idem (field : string) (this r : loc) (h : heap) :
  field ≠ "company" → field ≠ "is_fiscal_order" → field ≠ "non_fiscal_qr_data" →
  export_heap field this r (export_heap field this r h) = export_heap field this r h.
Proof.
  intros F1 F2 F3.
  unfold export_heap at 1.
  rewrite !export_heap_this by discriminate.
  assert (Ho : override_heap field this r (export_heap field this r h)
               = export_heap field this r h).
  { unfold override_heap at 1.
    rewrite export_heap_read by discriminate.
    rewrite export_heap_this by done.
    destruct (hget r "headerData" h) as [| | | | | | |hd] eqn:Eh; try done.
    destruct (truthy (hget this field h)) eqn:Ed; [| done].
    unfold export_heap. rewrite (override_heap_taken _ _ _ _ _ Eh Ed).
    rewrite (hset_comm hd "company" _ r "non_fiscal_qr_data") by discriminate.
    rewrite (hset_comm hd "company" _ r "is_fiscal_order") by discriminate.
    by rewrite hset_hset_eq. }
  rewrite Ho. unfold export_heap. apply custom_stores_again.
Qed.

Lemma export_safe_again (field : string) (this r : loc) (h : heap) :
  field ≠ "company" →
  export_safe field this (VObj r) (export_heap field this r h)
  = export_safe field this (VObj r) h.
Proof.
  intros F1. unfold export_safe.
  rewrite (export_heap_read _ _ _ r "headerData") by discriminate.
  by rewrite export_heap_this.
Qed.

Lemma printExport_idem (field : string) (this : loc) (base : val) (h : heap) :
  field ≠ "company" → field ≠ "is_fiscal_order" → field ≠ "non_fiscal_qr_data" →
  (r1 <- printExport field this base ;; printExport field this r1) h
  = printExport field this base h.
Proof.
  intros F1 F2 F3. unfold bind. rewrite printExport_run.
  destruct (export_safe field this base h) eqn:Es; [| reflexivity].
  destruct base as [| | | | | | |r]; try discriminate.
  rewrite printExport_run, export_safe_again, Es by done.
  by rewrite export_heap_idem.
Qed.

(** C7. Augmenting the same export for the same order a second time gives
    the outcome of the first time: the same returned value and the same
    heap (or the same exception), in both variants. *)
Theorem export_augmentation_idempotent (this : loc) (base : val) (h : heap) :
  (r1 <- OrderCompanyData.buildPrintExport this base ;;
   OrderCompanyData.buildPrintExport this r1) h
  = OrderCompanyData.buildPrintExport this base h ∧
  (r1 <- CompanyData.buildPrintExport this base ;;
   CompanyData.buildPrintExport this r1) h
  = CompanyData.buildPrintExport this base h.
Proof.
  rewrite ocd_buildPrintExport_eq, cd_buildPrintExport_eq.
  split; by apply printExport_idem.
Qed.

(** ** Failure *)

(** An export that is [undefined] or [null] cannot be augmented. *)
Lemma printExport_nullish_base (field : string) (this : loc) (base : val) (h : heap) :
  nullish base = true → printExport field this base h = Throw TypeError h.
Proof. rewrite printExport_run. by destruct base. Qed.

(** A missing or [null] bag cannot be read. *)
Lemma initializeFields_nullish_bag (this : loc) (vals : val) (h : heap) :
  nullish vals = true →
  OrderCompanyData.initializeFields this vals h = Throw TypeError h ∧
  CompanyData.initializeFields this vals h = Throw TypeError h.
Proof.
  intros Hv. rewrite ocd_initializeFields_run, cd_initializeFields_run. by rewrite Hv.
Qed.

(** Without an order, the header data is handed back as the host built it,
    whatever it is. *)
Lemma buildReceiptHeaderData_no_order (order data : val) (h : heap) :
  truthy order = false →
  ReceiptPatch.buildReceiptHeaderData order data h = Ok data h.
Proof. intros Ho. by rewrite buildReceiptHeaderData_run, Ho. Qed.

(** C8, as stated, fails: the order has a truthy override, the host's export
    has no [headerData] object (its [headerData] is the string ["x"]), and
    [export_for_printing] raises a [TypeError], in both variants; so it does
    when the host hands over [undefined] instead of an export. *)
Lemma export_string_headerData_throws :
  truthy (hget Scenario.order "order_company_data" Scenario.heapStr) = true ∧
  truthy (hget Scenario.order "company_data" Scenario.heapStr) = true ∧
  hget Scenario.export "headerData" Scenario.heapStr = VStr "x" ∧
  OrderCompanyData.export_for_printing (const_host (VObj Scenario.export))
    Scenario.order [] Scenario.heapStr = Throw TypeError Scenario.heapStr ∧
  CompanyData.export_for_printing (const_host (VObj Scenario.export))
    Scenario.order [] Scenario.heapStr = Throw TypeError Scenario.heapStr ∧
  OrderCompanyData.export_for_printing (const_host VUndef)
    Scenario.order [] Scenario.heapStr = Throw TypeError Scenario.heapStr ∧
  CompanyData.export_for_printing (const_host VUndef)
    Scenario.order [] Scenario.heapStr = Throw TypeError Scenario.heapStr.
Proof. repeat split; vm_compute; reflexivity. Qed.

(** * Further properties of the three operations *)

(** ** More on the heap *)

Lemma hset_comm_loc (l : loc) (k : string) (x : val) (l' : loc) (k' : string) (y : val)
    (h : heap) :
  l ≠ l' → hset l k x (hset l' k' y h) = hset l' k' y (hset l k x h).
Proof.
  intros Hl. unfold hset at 1 3. rewrite !hobj_hset.
  rewrite !decide_False by congruence. unfold hset. by apply insert_insert_ne.
Qed.

(** Storing the value a property already has leaves the heap as it is. *)
Lemma hset_id (l : loc) (k : string) (x : val) (h : heap) :
  hobj l h !! k = Some x → hset l k x h = h.
Proof.
  unfold hset, hobj. intros Hk.
  destruct (h !! l) as [o|] eqn:El; simpl in *.
  - rewrite (insert_id o k x Hk). by apply insert_id.
  - by rewrite lookup_empty in Hk.
Qed.

Lemma hget_present (l : loc) (k : string) (h : heap) :
  has_prop l k h → hobj l h !! k = Some (hget l k h).
Proof. unfold has_prop, hget. by intros [x ->]. Qed.

(** ** [setup]: what is kept, what is touched, when it fails *)

(** X1. [setup] does not coerce [is_fiscal_order] to a boolean.  The first
    variant stores the bag's value as it is whenever it is not [undefined],
    and what it stores is never [undefined]; the second variant stores the
    bag's value as it is whenever it is neither [undefined] nor [null], and
    what it stores is never [undefined] or [null]. *)
Theorem setup_is_fiscal_order_kept (ss : loc → val → M val) (this : loc) (vals r : val)
    (h h1 : heap) :
  nullish vals = false →
  ss this vals h = Ok r h1 →
  (∃ h2, OrderCompanyData.setup ss this vals h = Ok tt h2 ∧
     hget this "is_fiscal_order" h2 ≠ VUndef ∧
     (peek vals "is_fiscal_order" h1 ≠ VUndef →
      hget this "is_fiscal_order" h2 = peek vals "is_fiscal_order" h1)) ∧
  (∃ h2, CompanyData.setup ss this vals h = Ok tt h2 ∧
     nullish (hget this "is_fiscal_order" h2) = false ∧
     (nullish (peek vals "is_fiscal_order" h1) = false →
      hget this "is_fiscal_order" h2 = peek vals "is_fiscal_order" h1)).
Proof.
  intros Hv Hs. split; eexists.
  - split; [setup_run Hs; by rewrite Hv |]. heap_simpl.
    destruct (peek vals "is_fiscal_order" h1); by split.
  - split; [setup_run Hs; by rewrite Hv |]. heap_simpl.
    destruct (peek vals "is_fiscal_order" h1); by split.
Qed.

Lemma setup_is_fiscal_order_kept_witness :
  ∃ h2, OrderCompanyData.setup idle_host Scenario.order (VObj Scenario.bag)
          Scenario.heapNull = Ok tt h2 ∧
    hget Scenario.order "is_fiscal_order" h2 = VNull.
Proof.
  destruct (setup_is_fiscal_order_kept idle_host Scenario.order (VObj Scenario.bag) VUndef
              Scenario.heapNull Scenario.heapNull eq_refl eq_refl)
    as [(h2 & Hrun & _ & Hkeep) _].
  exists h2. split; [exact Hrun |]. apply Hkeep. discriminate.
Defined.

(** The three stores of [setup] respect the frame. *)
Lemma three_stores_frame (this : loc) (k1 k2 k3 : string) (x1 x2 x3 : val) (h : heap) :
  let h2 := hset this k3 x3 (hset this k2 x2 (hset this k1 x1 h)) in
  superset h h2 ∧
  unchanged_outside (λ l k, l = this ∧ (k = k1 ∨ k = k2 ∨ k = k3)) h h2 ∧
  has_prop this k1 h2 ∧ has_prop this k2 h2 ∧ has_prop this k3 h2.
Proof.
  simpl. split; [| split; [| split; [| split]]].
  - do 3 apply superset_hset. apply superset_refl.
  - intros l k Hn. rewrite !hobj_lookup_hset.
    rewrite !decide_False; [done | | |]; intros [-> <-]; apply Hn; auto.
  - do 2 apply has_prop_hset. apply has_prop_hset_eq.
  - apply has_prop_hset, has_prop_hset_eq.
  - apply has_prop_hset_eq.
Qed.

(** X2. Whenever [setup] returns, the order owns the three custom fields,
    no property of any object has been removed since the host's [setup]
    returned, and nothing but these three fields of the order has changed:
    the bag, in particular, is only read. *)
Theorem setup_frame (ss : loc → val → M val) (this : loc) (vals r : val) (h h1 : heap) :
  ss this vals h = Ok r h1 →
  (∀ h2, OrderCompanyData.setup ss this vals h = Ok tt h2 →
     superset h1 h2 ∧
     unchanged_outside
       (λ l k, l = this ∧ (k = "is_fiscal_order" ∨ k = "non_fiscal_qr_data" ∨
                           k = "order_company_data")) h1 h2 ∧
     has_prop this "is_fiscal_order" h2 ∧ has_prop this "non_fiscal_qr_data" h2 ∧
     has_prop this "order_company_data" h2) ∧
  (∀ h2, CompanyData.setup ss this vals h = Ok tt h2 →
     superset h1 h2 ∧
     unchanged_outside
       (λ l k, l = this ∧ (k = "company_data" ∨ k = "is_fiscal_order" ∨
                           k = "non_fiscal_qr_data")) h1 h2 ∧
     has_prop this "company_data" h2 ∧ has_prop this "is_fiscal_order" h2 ∧
     has_prop this "non_fiscal_qr_data" h2).
Proof.
  intros Hs. split; intros h2; setup_run Hs;
    (destruct (nullish vals); [done |]); intros [= <-]; apply three_stores_frame.
Qed.

Lemma setup_frame_witness :
  ∃ h2, CompanyData.setup idle_host Scenario.order (VObj Scenario.bag) Scenario.heapB
        = Ok tt h2 ∧
    hobj Scenario.bag h2 !! "non_fiscal_qr_data" = Some (VStr "QR123") ∧
    has_prop Scenario.order "company_data" h2.
Proof.
  exists (Scenario.final (CompanyData.setup idle_host Scenario.order (VObj Scenario.bag)
                            Scenario.heapB)).
  split; [reflexivity |].
  destruct (setup_frame idle_host Scenario.order (VObj Scenario.bag) VUndef
              Scenario.heapB Scenario.heapB eq_refl) as [_ Hcd].
  destruct (Hcd _ eq_refl) as (_ & Hun & Hp & _).
  split; [| exact Hp].
  rewrite Hun; [reflexivity |]. intros [E _]. discriminate E.
Defined.

Lemma js_or_idem (v : val) :
  js_or (js_or v (VBool false)) (VBool false) = js_or v (VBool false).
Proof. unfold js_or. by destruct (truthy v) eqn:E; simpl; rewrite ?E. Qed.

Lemma hset_same (l : loc) (k : string) (h : heap) :
  has_prop l k h → hset l k (hget l k h) h = h.
Proof. intros Hp. by apply hset_id, hget_present. Qed.

(** X4. The normalised fields are fixed points of the normalisation: when an
    order is set up from an order that was itself set up by the same
    variant, it receives exactly that order's three custom fields; and
    setting an order up from itself leaves the heap as it is. *)
Theorem setup_from_order (this a : loc) (vals : val) (h h2 : heap) :
  (OrderCompanyData.initializeFields a vals h = Ok tt h2 →
   ∃ h3, OrderCompanyData.initializeFields this (VObj a) h2 = Ok tt h3 ∧
     hget this "is_fiscal_order" h3 = hget a "is_fiscal_order" h2 ∧
     hget this "non_fiscal_qr_data" h3 = hget a "non_fiscal_qr_data" h2 ∧
     hget this "order_company_data" h3 = hget a "order_company_data" h2 ∧
     (this = a → h3 = h2)) ∧
  (CompanyData.initializeFields a vals h = Ok tt h2 →
   ∃ h3, CompanyData.initializeFields this (VObj a) h2 = Ok tt h3 ∧
     hget this "is_fiscal_order" h3 = hget a "is_fiscal_order" h2 ∧
     hget this "non_fiscal_qr_data" h3 = hget a "non_fiscal_qr_data" h2 ∧
     hget this "company_data" h3 = hget a "company_data" h2 ∧
     (this = a → h3 = h2)).
Proof.
  split.
  - rewrite !ocd_initializeFields_run. destruct (nullish vals); [done |].
    intros [= E2]. simpl. eexists. split; [reflexivity |].
    assert (E1 : (match hget a "is_fiscal_order" h2 with
                  | VUndef => VBool true
                  | _ => hget a "is_fiscal_order" h2
                  end) = hget a "is_fiscal_order" h2).
    { rewrite <- E2. heap_simpl. by destruct (peek vals "is_fiscal_order" h). }
    assert (E3 : js_or (hget a "non_fiscal_qr_data" h2) (VBool false)
                 = hget a "non_fiscal_qr_data" h2).
    { rewrite <- E2. heap_simpl. apply js_or_idem. }
    assert (E4 : js_or (hget a "order_company_data" h2) (VBool false)
                 = hget a "order_company_data" h2).
    { rewrite <- E2. heap_simpl. apply js_or_idem. }
    heap_simpl. rewrite E1, E3, E4. repeat split.
    intros ->.
    assert (P1 : has_prop a "is_fiscal_order" h2)
      by (rewrite <- E2; do 2 apply has_prop_hset; apply has_prop_hset_eq).
    assert (P2 : has_prop a "non_fiscal_qr_data" h2)
      by (rewrite <- E2; apply has_prop_hset, has_prop_hset_eq).
    assert (P3 : has_prop a "order_company_data" h2)
      by (rewrite <- E2; apply has_prop_hset_eq).
    rewrite (hset_same _ _ _ P1), (hset_same _ _ _ P2). by apply hset_same.
  - rewrite !cd_initializeFields_run. destruct (nullish vals); [done |].
    intros [= E2]. simpl. eexists. split; [reflexivity |].
    assert (E1 : js_nullish (hget a "is_fiscal_order" h2) (VBool true)
                 = hget a "is_fiscal_order" h2).
    { rewrite <- E2. heap_simpl. by destruct (peek vals "is_fiscal_order" h). }
    assert (E3 : js_or (hget a "non_fiscal_qr_data" h2) (VBool false)
                 = hget a "non_fiscal_qr_data" h2).
    { rewrite <- E2. heap_simpl. apply js_or_idem. }
    assert (E4 : js_or (hget a "company_data" h2) (VBool false)
                 = hget a "company_data" h2).
    { rewrite <- E2. heap_simpl. apply js_or_idem. }
    heap_simpl. rewrite E1, E3, E4. repeat split.
    intros ->.
    assert (P1 : has_prop a "company_data" h2)
      by (rewrite <- E2; do 2 apply has_prop_hset; apply has_prop_hset_eq).
    assert (P2 : has_prop a "is_fiscal_order" h2)
      by (rewrite <- E2; apply has_prop_hset, has_prop_hset_eq).
    assert (P3 : has_prop a "non_fiscal_qr_data" h2)
      by (rewrite <- E2; apply has_prop_hset_eq).
    rewrite (hset_same _ _ _ P1), (hset_same _ _ _ P2). by apply hset_same.
Qed.

Lemma setup_from_order_witness :
  let h2 := Scenario.final (CompanyData.initializeFields Scenario.order (VObj Scenario.bag)
                              Scenario.heapB) in
  ∃ h3, CompanyData.initializeFields Scenario.store (VObj Scenario.order) h2 = Ok tt h3 ∧
    hget Scenario.store "is_fiscal_order" h3 = VBool false ∧
    hget Scenario.store "non_fiscal_qr_data" h3 = VStr "QR123".
Proof.
  intros h2.
  destruct (setup_from_order Scenario.store Scenario.order (VObj Scenario.bag)
              Scenario.heapB h2) as [_ Hcd].
  destruct (Hcd eq_refl) as (h3 & Hrun & Hf & Hq & _).
  exists h3. split; [exact Hrun |]. split; [exact Hf | exact Hq].
Defined.

(** X5. On a bag that is neither [undefined] nor [null] the two variants of
    [setup] store the same [non_fiscal_qr_data], store the same override
    when the bag carries it under both names, and store the same
    [is_fiscal_order] exactly when the bag's [is_fiscal_order] is not
    [null]: [null] is the only value that tells the variants apart. *)
Theorem setup_variants_differ_on_null_only (ss : loc → val → M val) (this : loc)
    (vals r : val) (h h1 : heap) :
  nullish vals = false →
  ss this vals h = Ok r h1 →
  ∃ h2 h2',
    OrderCompanyData.setup ss this vals h = Ok tt h2 ∧
    CompanyData.setup ss this vals h = Ok tt h2' ∧
    hget this "non_fiscal_qr_data" h2 = hget this "non_fiscal_qr_data" h2' ∧
    (hget this "is_fiscal_order" h2 = hget this "is_fiscal_order" h2' ↔
     peek vals "is_fiscal_order" h1 ≠ VNull) ∧
    (peek vals "order_company_data" h1 = peek vals "company_data" h1 →
     hget this "order_company_data" h2 = hget this "company_data" h2').
Proof.
  intros Hv Hs. do 2 eexists.
  split; [setup_run Hs; by rewrite Hv |].
  split; [setup_run Hs; by rewrite Hv |].
  heap_simpl. split; [done |]. split; [| by intros ->].
  destruct (peek vals "is_fiscal_order" h1); simpl; split; congruence.
Qed.

Lemma setup_variants_differ_on_null_only_witness :
  ∃ h2 h2',
    OrderCompanyData.setup idle_host Scenario.order (VObj Scenario.bag) Scenario.heapB
      = Ok tt h2 ∧
    CompanyData.setup idle_host Scenario.order (VObj Scenario.bag) Scenario.heapB
      = Ok tt h2' ∧
    hget Scenario.order "is_fiscal_order" h2 = hget Scenario.order "is_fiscal_order" h2'.
Proof.
  destruct (setup_variants_differ_on_null_only idle_host Scenario.order
              (VObj Scenario.bag) VUndef Scenario.heapB Scenario.heapB eq_refl eq_refl)
    as (h2 & h2' & H1 & H2 & _ & Hiff & _).
  exists h2, h2'. split; [exact H1 |]. split; [exact H2 |].
  apply Hiff. discriminate.
Defined.

(** ** [export_for_printing]: when it fails, what it leaves alone *)

(** X7. The export augmentation only reads the order: whenever it returns,
    every property of the order other than [company] has the value it had,
    even when the order is itself the export or its [headerData]; and when
    it is neither, the order is untouched altogether. *)
Theorem export_leaves_order (sx : loc → list val → M val) (this : loc) (args : list val)
    (base : val) (h h1 : heap) :
  sx this args h = Ok base h1 →
  (∀ v h2, OrderCompanyData.export_for_printing sx this args h = Ok v h2 →
     (∀ k, k ≠ "company" → hget this k h2 = hget this k h1) ∧
     (base ≠ VObj this → peek base "headerData" h1 ≠ VObj this →
      hobj this h2 = hobj this h1)) ∧
  (∀ v h2, CompanyData.export_for_printing sx this args h = Ok v h2 →
     (∀ k, k ≠ "company" → hget this k h2 = hget this k h1) ∧
     (base ≠ VObj this → peek base "headerData" h1 ≠ VObj this →
      hobj this h2 = hobj this h1)).
Proof.
  intros Hs.
  rewrite (export_for_printing_run_ocd _ _ _ _ _ _ Hs),
          (export_for_printing_run_cd _ _ _ _ _ _ Hs).
  assert (Hgen : ∀ field v h2, printExport field this base h1 = Ok v h2 →
     (∀ k, k ≠ "company" → hget this k h2 = hget this k h1) ∧
     (base ≠ VObj this → peek base "headerData" h1 ≠ VObj this →
      hobj this h2 = hobj this h1)).
  { intros field v h2 Hrun. split.
    - rewrite printExport_run in Hrun.
      destruct (export_safe field this base h1); [| done].
      destruct base as [| | | | | | |r]; injection Hrun as <- <-; try done.
      intros k Hk. by apply export_heap_this.
    - intros Hb Hh. destruct (printExport_frame _ _ _ _ _ _ Hrun) as (_ & _ & Hun).
      apply map_eq. intros k. apply Hun.
      intros [[E _] | (E & _)]; congruence. }
  split; intros v h2; apply Hgen.
Qed.

Lemma export_leaves_order_witness :
  ∃ h2, CompanyData.export_for_printing (const_host (VObj Scenario.export))
          Scenario.order [] Scenario.heapNoHeader = Ok (VObj Scenario.export) h2 ∧
    hget Scenario.order "company_data" h2 = VObj Scenario.new_co.
Proof.
  exists (Scenario.final (CompanyData.export_for_printing
                            (const_host (VObj Scenario.export))
                            Scenario.order [] Scenario.heapNoHeader)).
  split; [reflexivity |].
  destruct (export_leaves_order (const_host (VObj Scenario.export)) Scenario.order []
              (VObj Scenario.export) Scenario.heapNoHeader Scenario.heapNoHeader eq_refl)
    as [_ Hcd].
  destruct (Hcd _ _ eq_refl) as [Hk _]. rewrite Hk; [reflexivity | discriminate].
Defined.

(** ** [getReceiptHeaderData]: no order, failure, repetition *)

Lemma header_heap_idem (order : val) (d : loc) (h : heap) :
  header_heap order d (header_heap order d h) = header_heap order d h.
Proof.
  unfold header_heap at 1.
  assert (E : ∀ k, k = "is_fiscal_order" ∨ k = "non_fiscal_qr_data" →
            js_or (peek order k (header_heap order d h)) (VBool false)
            = js_or (peek order k h) (VBool false)).
  { intros k Hk. destruct order as [| | | | | | |o]; try reflexivity.
    unfold header_heap. simpl. destruct (decide (o = d)) as [-> | Hne].
    - destruct Hk as [-> | ->]; heap_simpl; apply js_or_idem.
    - rewrite !hget_hset, !decide_False; [done | |]; by intros [? _]. }
  rewrite !E by auto. unfold header_heap. apply custom_stores_again.
Qed.

(** X9. The header-data augmentation is idempotent: applied a second time to
    the object it returned, for the same order, it gives the outcome of the
    first time (same value and heap, or the same exception), even when the
    header data is the order itself. *)
Theorem header_augmentation_idempotent (order data : val) (h : heap) :
  (d1 <- ReceiptPatch.buildReceiptHeaderData order data ;;
   ReceiptPatch.buildReceiptHeaderData order d1) h
  = ReceiptPatch.buildReceiptHeaderData order data h.
Proof.
  unfold bind. rewrite buildReceiptHeaderData_run.
  destruct (truthy order) eqn:Ho.
  - destruct data as [| | | | | | |d]; try reflexivity.
    rewrite buildReceiptHeaderData_run, Ho. by rewrite header_heap_idem.
  - by rewrite buildReceiptHeaderData_run, Ho.
Qed.

(** ** The two augmentations together *)

Lemma hget_header_heap (order : val) (d l : loc) (k : string) (h : heap) :
  l ≠ d ∨ (k ≠ "is_fiscal_order" ∧ k ≠ "non_fiscal_qr_data") →
  hget l k (header_heap order d h) = hget l k h.
Proof.
  intros Hc. unfold header_heap.
  rewrite !hget_hset, !decide_False; [done | |];
    intros [-> <-]; destruct Hc as [? | [? ?]]; done.
Qed.

Lemma hget_override_heap (field : string) (this r l : loc) (k : string) (h : heap) :
  k ≠ "company" → hget l k (override_heap field this r h) = hget l k h.
Proof. intros Hk. unfold hget. by rewrite override_heap_key. Qed.

Lemma override_heap_header_heap (field : string) (this r d : loc) (h : heap) :
  d ≠ this →
  override_heap field this r (header_heap (VObj this) d h)
  = header_heap (VObj this) d (override_heap field this r h).
Proof.
  intros Hd. unfold override_heap.
  rewrite (hget_header_heap _ d r "headerData") by (right; split; discriminate).
  rewrite (hget_header_heap _ d this field) by (by left).
  destruct (hget r "headerData" h) as [| | | | | | |hd]; try done.
  destruct (truthy (hget this field h)); [| done].
  unfold header_heap. simpl.
  rewrite !hget_hset_key by discriminate.
  rewrite (hset_comm hd "company" _ d "non_fiscal_qr_data") by discriminate.
  by rewrite (hset_comm hd "company" _ d "is_fiscal_order") by discriminate.
Qed.

Lemma export_header_heaps_commute (field : string) (this r d : loc) (h : heap) :
  d ≠ this → d ≠ r →
  header_heap (VObj this) d (export_heap field this r h)
  = export_heap field this r (header_heap (VObj this) d h).
Proof.
  intros Hd Hr. unfold export_heap at 2.
  rewrite !(hget_header_heap _ d this) by (by left).
  rewrite override_heap_header_heap by done.
  unfold header_heap at 1. simpl.
  rewrite !export_heap_this by discriminate.
  unfold export_heap, header_heap. simpl.
  rewrite !hget_override_heap by discriminate.
  rewrite (hset_comm_loc r "is_fiscal_order" _ d "non_fiscal_qr_data") by congruence.
  rewrite (hset_comm_loc r "is_fiscal_order" _ d "is_fiscal_order") by congruence.
  rewrite (hset_comm_loc r "non_fiscal_qr_data" _ d "non_fiscal_qr_data") by congruence.
  by rewrite (hset_comm_loc r "non_fiscal_qr_data" _ d "is_fiscal_order") by congruence.
Qed.

Lemma printExport_header_commute (field : string) (this r d : loc) (h : heap) :
  d ≠ this → d ≠ r → headerData_ok r h →
  ∃ h',
    (printExport field this (VObj r) ;;
     ReceiptPatch.buildReceiptHeaderData (VObj this) (VObj d)) h = Ok (VObj d) h' ∧
    (ReceiptPatch.buildReceiptHeaderData (VObj this) (VObj d) ;;
     printExport field this (VObj r)) h = Ok (VObj r) h'.
Proof.
  intros Hd Hr Hok. eexists. unfold bind.
  rewrite printExport_object by done.
  rewrite !buildReceiptHeaderData_run. simpl.
  split; [reflexivity |].
  rewrite printExport_object.
  - by rewrite export_header_heaps_commute.
  - unfold headerData_ok.
    by rewrite (hget_header_heap _ d r "headerData") by (right; split; discriminate).
Qed.

(** X10. The two augmentations commute.  For an order, a host export [r]
    with a usable [headerData] and a host header-data object [d] that is
    neither the order nor the export, augmenting the export and then the
    header data leaves the same heap as augmenting the header data and then
    the export; [d] may well be the export's [headerData]. *)
Theorem export_header_commute (this r d : loc) (h : heap) :
  d ≠ this → d ≠ r → headerData_ok r h →
  (∃ h',
     (OrderCompanyData.buildPrintExport this (VObj r) ;;
      ReceiptPatch.buildReceiptHeaderData (VObj this) (VObj d)) h = Ok (VObj d) h' ∧
     (ReceiptPatch.buildReceiptHeaderData (VObj this) (VObj d) ;;
      OrderCompanyData.buildPrintExport this (VObj r)) h = Ok (VObj r) h') ∧
  (∃ h',
     (CompanyData.buildPrintExport this (VObj r) ;;
      ReceiptPatch.buildReceiptHeaderData (VObj this) (VObj d)) h = Ok (VObj d) h' ∧
     (ReceiptPatch.buildReceiptHeaderData (VObj this) (VObj d) ;;
      CompanyData.buildPrintExport this (VObj r)) h = Ok (VObj r) h').
Proof.
  intros Hd Hr Hok. rewrite ocd_buildPrintExport_eq, cd_buildPrintExport_eq.
  split; by apply printExport_header_commute.
Qed.

Lemma export_header_commute_witness :
  let h := Scenario.final (CompanyData.initializeFields Scenario.order (VObj Scenario.bag)
                             (Scenario.heapC "company_data")) in
  ∃ h',
    (CompanyData.buildPrintExport Scenario.order (VObj Scenario.export) ;;
     ReceiptPatch.buildReceiptHeaderData (VObj Scenario.order) (VObj Scenario.header)) h
    = Ok (VObj Scenario.header) h' ∧
    (ReceiptPatch.buildReceiptHeaderData (VObj Scenario.order) (VObj Scenario.header) ;;
     CompanyData.buildPrintExport Scenario.order (VObj Scenario.export)) h
    = Ok (VObj Scenario.export) h'.
Proof.
  intros h.
  assert (H1 : Scenario.header ≠ Scenario.order) by discriminate.
  assert (H2 : Scenario.header ≠ Scenario.export) by discriminate.
  destruct (export_header_commute Scenario.order Scenario.export Scenario.header h
              H1 H2 (or_introl eq_refl)) as [_ Hcd].
  exact Hcd.
Defined.

Lemma js_or_fix (v : val) : js_or v (VBool false) = v ↔ sentinel v.
Proof.
  unfold js_or, sentinel. destruct (truthy v) eqn:E; split; auto.
  - intros [? | ->]; [done | reflexivity].
Qed.

(** X11. What the export and the header data say about the same order,
    each augmented from the same heap.  The header's [is_fiscal_order] is the
    export's one [|| false], so the two are equal exactly when the order's
    [is_fiscal_order] is truthy or [false] (after the first variant of
    [setup] on a bag carrying [null], the export says [null] and the header
    [false]); for an order that went through [setup], of either variant, the
    two carry the same [non_fiscal_qr_data]. *)
Theorem export_and_header_agreement (this r d : loc) (vals : val) (h0 h : heap) :
  headerData_ok r h →
  (∃ he hh,
     OrderCompanyData.buildPrintExport this (VObj r) h = Ok (VObj r) he ∧
     ReceiptPatch.buildReceiptHeaderData (VObj this) (VObj d) h = Ok (VObj d) hh ∧
     hget d "is_fiscal_order" hh = js_or (hget r "is_fiscal_order" he) (VBool false) ∧
     (hget d "is_fiscal_order" hh = hget r "is_fiscal_order" he ↔
      sentinel (hget this "is_fiscal_order" h)) ∧
     (OrderCompanyData.initializeFields this vals h0 = Ok tt h →
      hget d "non_fiscal_qr_data" hh = hget r "non_fiscal_qr_data" he)) ∧
  (∃ he hh,
     CompanyData.buildPrintExport this (VObj r) h = Ok (VObj r) he ∧
     ReceiptPatch.buildReceiptHeaderData (VObj this) (VObj d) h = Ok (VObj d) hh ∧
     hget d "is_fiscal_order" hh = js_or (hget r "is_fiscal_order" he) (VBool false) ∧
     (hget d "is_fiscal_order" hh = hget r "is_fiscal_order" he ↔
      sentinel (hget this "is_fiscal_order" h)) ∧
     (CompanyData.initializeFields this vals h0 = Ok tt h →
      hget d "non_fiscal_qr_data" hh = hget r "non_fiscal_qr_data" he)).
Proof.
  intros Hok. rewrite ocd_buildPrintExport_eq, cd_buildPrintExport_eq.
  rewrite !printExport_object by done. rewrite buildReceiptHeaderData_run. simpl.
  split; do 2 eexists; (split; [reflexivity |]); (split; [reflexivity |]);
    unfold header_heap, export_heap; simpl; heap_simpl;
    (split; [reflexivity |]); (split; [apply js_or_fix |]).
  - rewrite ocd_initializeFields_run. destruct (nullish vals); [done |].
    intros [= <-]. heap_simpl. apply js_or_idem.
  - rewrite cd_initializeFields_run. destruct (nullish vals); [done |].
    intros [= <-]. heap_simpl. apply js_or_idem.
Qed.

Lemma export_and_header_agreement_witness :
  let h := Scenario.final (OrderCompanyData.initializeFields Scenario.order
                             (VObj Scenario.bag) Scenario.heapNull) in
  ∃ he hh,
    OrderCompanyData.buildPrintExport Scenario.order (VObj Scenario.export) h
      = Ok (VObj Scenario.export) he ∧
    ReceiptPatch.buildReceiptHeaderData (VObj Scenario.order) (VObj Scenario.header) h
      = Ok (VObj Scenario.header) hh ∧
    hget Scenario.export "is_fiscal_order" he = VNull ∧
    hget Scenario.header "is_fiscal_order" hh = VBool false.
Proof.
  intros h.
  destruct (export_and_header_agreement Scenario.order Scenario.export Scenario.header
              (VObj Scenario.bag) Scenario.heapNull h (or_intror eq_refl))
    as [(he & hh & He & Hh & Hor & _) _].
  exists he, hh. split; [exact He |]. split; [exact Hh |].
  injection He as <-. split; [reflexivity |]. rewrite Hor. reflexivity.
Defined.

(** X12. From construction to printing.  When an order is set up from a bag
    and its export (whose [headerData] is an object) is then augmented: if
    the bag's override is truthy, [headerData.company] becomes the very value
    the bag carried; if it is falsy or missing, no [company] property of any
    object changes.  Both variants. *)
Theorem override_from_bag_to_receipt (this bag r hd : loc) (h0 h : heap) :
  hget r "headerData" h = VObj hd →
  (OrderCompanyData.initializeFields this (VObj bag) h0 = Ok tt h →
   ∃ h2, OrderCompanyData.buildPrintExport this (VObj r) h = Ok (VObj r) h2 ∧
     (truthy (hget bag "order_company_data" h0) = true →
      hget hd "company" h2 = hget bag "order_company_data" h0) ∧
     (truthy (hget bag "order_company_data" h0) = false →
      ∀ l, hobj l h2 !! "company" = hobj l h !! "company")) ∧
  (CompanyData.initializeFields this (VObj bag) h0 = Ok tt h →
   ∃ h2, CompanyData.buildPrintExport this (VObj r) h = Ok (VObj r) h2 ∧
     (truthy (hget bag "company_data" h0) = true →
      hget hd "company" h2 = hget bag "company_data" h0) ∧
     (truthy (hget bag "company_data" h0) = false →
      ∀ l, hobj l h2 !! "company" = hobj l h !! "company")).
Proof.
  intros Hh.
  assert (Hgen : ∀ field, field ≠ "company" →
    hget this field h = js_or (hget bag field h0) (VBool false) →
    ∃ h2, printExport field this (VObj r) h = Ok (VObj r) h2 ∧
      (truthy (hget bag field h0) = true → hget hd "company" h2 = hget bag field h0) ∧
      (truthy (hget bag field h0) = false →
       ∀ l, hobj l h2 !! "company" = hobj l h !! "company")).
  { intros field Hf Hv. unfold js_or in Hv.
    destruct (truthy (hget bag field h0)) eqn:Et.
    - destruct (printExport_override field this r hd h Hf Hh) as (h2 & Hrun & _ & Hc & _).
      { by rewrite Hv. }
      exists h2. split; [done |]. split; [| done]. intros _. by rewrite Hc.
    - destruct (printExport_no_override field this r h Hv) as (h2 & Hrun & _ & Hc & _).
      exists h2. split; [done |]. split; [done |]. by intros _. }
  split; intros Hrun.
  - apply Hgen; [discriminate |].
    rewrite ocd_initializeFields_run in Hrun. simpl in Hrun.
    injection Hrun as <-. by heap_simpl.
  - apply Hgen; [discriminate |].
    rewrite cd_initializeFields_run in Hrun. simpl in Hrun.
    injection Hrun as <-. by heap_simpl.
Qed.

Lemma override_from_bag_to_receipt_witness :
  let h := Scenario.final (CompanyData.initializeFields Scenario.order (VObj Scenario.bag)
                             (Scenario.heapC "company_data")) in
  ∃ h2, CompanyData.buildPrintExport Scenario.order (VObj Scenario.export) h
          = Ok (VObj Scenario.export) h2 ∧
    hget Scenario.header "company" h2 = VObj Scenario.new_co.
Proof.
  intros h.
  destruct (override_from_bag_to_receipt Scenario.order Scenario.bag Scenario.export
              Scenario.header (Scenario.heapC "company_data") h eq_refl) as [_ Hcd].
  destruct (Hcd eq_refl) as (h2 & Hrun & Ht & _).
  exists h2. split; [exact Hrun |]. apply Ht. reflexivity.
Defined.

(** X13. Whenever [export_for_printing] returns, with or without an override,
    the export owns [is_fiscal_order] and [non_fiscal_qr_data] and they are
    exactly the order's values as the host left them, uncoerced and whatever
    the host had stored under these names.  Both variants. *)
Theorem export_copies_order_fields (sx : loc → list val → M val) (this : loc)
    (args : list val) (base : val) (h h1 : heap) :
  sx this args h = Ok base h1 →
  (∀ v h2, OrderCompanyData.export_for_printing sx this args h = Ok v h2 →
     ∃ r, v = VObj r ∧ base = VObj r ∧
       has_prop r "is_fiscal_order" h2 ∧ has_prop r "non_fiscal_qr_data" h2 ∧
       hget r "is_fiscal_order" h2 = hget this "is_fiscal_order" h1 ∧
       hget r "non_fiscal_qr_data" h2 = hget this "non_fiscal_qr_data" h1) ∧
  (∀ v h2, CompanyData.export_for_printing sx this args h = Ok v h2 →
     ∃ r, v = VObj r ∧ base = VObj r ∧
       has_prop r "is_fiscal_order" h2 ∧ has_prop r "non_fiscal_qr_data" h2 ∧
       hget r "is_fiscal_order" h2 = hget this "is_fiscal_order" h1 ∧
       hget r "non_fiscal_qr_data" h2 = hget this "non_fiscal_qr_data" h1).
Proof.
  intros Hs.
  rewrite (export_for_printing_run_ocd _ _ _ _ _ _ Hs),
          (export_for_printing_run_cd _ _ _ _ _ _ Hs).
  assert (Hgen : ∀ field v h2, printExport field this base h1 = Ok v h2 →
     ∃ r, v = VObj r ∧ base = VObj r ∧
       has_prop r "is_fiscal_order" h2 ∧ has_prop r "non_fiscal_qr_data" h2 ∧
       hget r "is_fiscal_order" h2 = hget this "is_fiscal_order" h1 ∧
       hget r "non_fiscal_qr_data" h2 = hget this "non_fiscal_qr_data" h1).
  { intros field v h2. rewrite printExport_run.
    destruct (export_safe field this base h1) eqn:Es; [| done].
    destruct base as [| | | | | | |r]; try discriminate.
    intros [= <- <-]. exists r. unfold export_heap.
    split; [done |]. split; [done |].
    split; [apply has_prop_hset, has_prop_hset_eq |].
    split; [apply has_prop_hset_eq |]. by heap_simpl. }
  split; intros v h2; apply Hgen.
Qed.

Lemma export_copies_order_fields_witness :
  ∃ h2, CompanyData.export_for_printing (const_host (VObj Scenario.export))
          Scenario.order [] Scenario.heapNoHeader = Ok (VObj Scenario.export) h2 ∧
    hget Scenario.export "is_fiscal_order" h2 = VBool true.
Proof.
  exists (Scenario.final (CompanyData.export_for_printing
                            (const_host (VObj Scenario.export))
                            Scenario.order [] Scenario.heapNoHeader)).
  split; [reflexivity |].
  destruct (export_copies_order_fields (const_host (VObj Scenario.export)) Scenario.order []
              (VObj Scenario.export) Scenario.heapNoHeader Scenario.heapNoHeader eq_refl)
    as [_ Hcd].
  destruct (Hcd _ _ eq_refl) as (r & _ & [= <-] & _ & _ & Hf & _).
  exact Hf.
Defined.

(** * Second layer: which inputs make an operation return or raise *)

(** ** Reads and stores *)

Lemma with_heap_id (s : Strict.state) : Strict.with_heap (Strict.heap_of s) s = s.
Proof. by destruct s. Qed.

Section StrictFacts.

Variable call : Strict.fid → val → list val → Strict.M val.

Implicit Types (l : loc) (k : string) (v x : val) (h : heap).
Implicit Types (a : gmap (loc * string) Strict.attr) (z : gset loc).

(** A data property is read from the heap, whatever its protection. *)
Lemma sget_data l k h a z :
  Strict.data_at l k (Strict.mkState h a z) →
  Strict.get_prop call (VObj l) k (Strict.mkState h a z)
  = Strict.Ok (hget l k h) (Strict.mkState h a z).
Proof.
  unfold Strict.data_at, Strict.get_prop. simpl.
  by destruct (a !! (l, k)) as [[|g t]|].
Qed.

Lemma sget_nullish v k (s : Strict.state) :
  nullish v = true → Strict.get_prop call v k s = Strict.Throw TypeError s.
Proof. by destruct v. Qed.

Lemma sget_primitive v k (s : Strict.state) :
  nullish v = false → is_obj v = false → Strict.get_prop call v k s = Strict.Ok VUndef s.
Proof. by destruct v. Qed.

(** A store on an ordinary record goes to the heap. *)
Lemma sset_ordinary l k x h a z :
  Strict.ordinary (VObj l) (Strict.mkState h a z) →
  Strict.set_prop call (VObj l) k x (Strict.mkState h a z)
  = Strict.Ok tt (Strict.mkState (hset l k x h) a z).
Proof.
  intros Ho. destruct (Ho l eq_refl) as [Hs Ha]. simpl in Hs, Ha.
  unfold Strict.set_prop. simpl. rewrite Ha.
  rewrite (bool_decide_eq_false_2 _ Hs). by rewrite orb_true_r.
Qed.

(** A refused store raises and leaves the state as it is. *)
Lemma sset_refused l k x (s : Strict.state) :
  Strict.refuses l k s = true →
  Strict.set_prop call (VObj l) k x s = Strict.Throw TypeError s.
Proof.
  unfold Strict.refuses, Strict.set_prop.
  destruct (Strict.attrs s !! (l, k)) as [[|g [f|]]|]; try done.
  intros H. apply andb_true_iff in H as [H1 H2]. apply negb_true_iff in H1.
  by rewrite H1, H2.
Qed.

Lemma sset_primitive v k x (s : Strict.state) :
  is_obj v = false → Strict.set_prop call v k x s = Strict.Throw TypeError s.
Proof. by destruct v. Qed.

Lemma ordinary_data l k h h' a z :
  Strict.ordinary (VObj l) (Strict.mkState h a z) →
  Strict.data_at l k (Strict.mkState h' a z).
Proof.
  intros Ho. destruct (Ho l eq_refl) as [_ Ha]. simpl in Ha.
  unfold Strict.data_at. simpl. by rewrite Ha.
Qed.

Lemma readable_data l k h h' a z :
  Strict.readable (VObj l) (Strict.mkState h a z) →
  Strict.data_at l k (Strict.mkState h' a z).
Proof. intros Hr. exact (Hr l k eq_refl). Qed.

Lemma ordinary_heap v h h' a z :
  Strict.ordinary v (Strict.mkState h a z) → Strict.ordinary v (Strict.mkState h' a z).
Proof. intros Ho. exact Ho. Qed.

Lemma ordinary_not_refused l k (s : Strict.state) :
  Strict.ordinary (VObj l) s → Strict.refuses l k s = false.
Proof.
  intros Ho. destruct (Ho l eq_refl) as [Hs Ha]. unfold Strict.refuses.
  rewrite Ha, (bool_decide_eq_false_2 _ Hs). apply andb_false_r.
Qed.

End StrictFacts.

(** ** Running the programs of the second layer *)

Arguments Strict.get_prop : simpl never.
Arguments Strict.set_prop : simpl never.

Section StrictRuns.

Variable call : Strict.fid → val → list val → Strict.M val.

Ltac srun := unfold Strict.bind, Strict.ret; simpl.

Ltac sget H := rewrite sget_data by (eapply H; eassumption); simpl.
Ltac sset H := rewrite sset_ordinary by (eapply ordinary_heap; eassumption); simpl.

(** On ordinary records the export body of the second layer is the export
    body of the first. *)
Lemma strictPrintExport_ordinary (field : string) (this : loc) (result : val)
    (s : Strict.state) :
  Strict.readable (VObj this) s →
  Strict.ordinary result s →
  Strict.ordinary (peek result "headerData" (Strict.heap_of s)) s →
  strictPrintExport call field this result s
  = Strict.lift s (printExport field this result (Strict.heap_of s)).
Proof.
  destruct s as [h a z]. simpl. intros Hthis Hres Hhd.
  rewrite printExport_run. unfold strictPrintExport, export_safe. srun.
  sget readable_data.
  destruct result as [| | | | | | |r];
    try (destruct (truthy (hget this field h)) eqn:Ed; simpl;
         rewrite ?sget_nullish, ?sget_primitive by done; simpl; rewrite ?Ed; simpl;
         rewrite ?sget_data by (eapply readable_data; eassumption); simpl;
         by rewrite ?sset_primitive by done).
  destruct (truthy (hget this field h)) eqn:Ed; simpl.
  - sget ordinary_data.
    destruct (truthy (hget r "headerData" h)) eqn:Et; simpl.
    + sget ordinary_data. sget readable_data.
      destruct (hget r "headerData" h) as [| | | | | | |hd] eqn:Eh; simpl;
        rewrite ?sset_primitive by done; try reflexivity.
      simpl in Hhd. rewrite Eh in Hhd.
      sset Hhd. sget readable_data. sset Hres. sget readable_data. sset Hres.
      unfold export_heap, override_heap. rewrite Eh, Ed. by heap_simpl.
    + sget readable_data. sset Hres. sget readable_data. sset Hres.
      unfold export_heap. rewrite override_heap_skipped by (by right). by heap_simpl.
  - rewrite Ed. simpl. sget readable_data. sset Hres. sget readable_data. sset Hres.
    unfold export_heap. rewrite override_heap_skipped by (by left). by heap_simpl.
Qed.



Lemma strict_ocd_buildPrintExport_eq :
  StrictOrderCompanyData.buildPrintExport call = strictPrintExport call "order_company_data".
Proof. reflexivity. Qed.

Lemma strict_cd_buildPrintExport_eq :
  StrictCompanyData.buildPrintExport call = strictPrintExport call "company_data".
Proof. reflexivity. Qed.

Lemma strict_export_run_ocd sx (this : loc) (args : list val) (base : val)
    (s s1 : Strict.state) :
  sx this args s = Strict.Ok base s1 →
  StrictOrderCompanyData.export_for_printing call sx this args s
  = strictPrintExport call "order_company_data" this base s1.
Proof.
  intros Hs. unfold StrictOrderCompanyData.export_for_printing, Strict.bind.
  by rewrite Hs.
Qed.

Lemma strict_export_run_cd sx (this : loc) (args : list val) (base : val)
    (s s1 : Strict.state) :
  sx this args s = Strict.Ok base s1 →
  StrictCompanyData.export_for_printing call sx this args s
  = strictPrintExport call "company_data" this base s1.
Proof.
  intros Hs. unfold StrictCompanyData.export_for_printing, Strict.bind.
  by rewrite Hs.
Qed.

(** [setup]: on a readable bag and an ordinary order the second layer runs
    as the first. *)
Lemma strict_ocd_initializeFields_ordinary (this : loc) (vals : val) (s : Strict.state) :
  Strict.readable vals s → Strict.ordinary (VObj this) s →
  StrictOrderCompanyData.initializeFields call this vals s
  = Strict.lift s (OrderCompanyData.initializeFields this vals (Strict.heap_of s)).
Proof.
  destruct s as [h a z]. simpl. intros Hv Hthis.
  rewrite ocd_initializeFields_run.
  unfold StrictOrderCompanyData.initializeFields. srun.
  destruct vals as [| | | | | | |b]; simpl;
    rewrite ?sget_nullish, ?sget_primitive by done; simpl; try reflexivity;
    try (sset Hthis; rewrite ?sget_primitive by done; simpl;
         sset Hthis; rewrite ?sget_primitive by done; simpl; by sset Hthis).
  sget readable_data. rewrite <- strict_neq_undef.
  destruct (strict_neq (hget b "is_fiscal_order" h) VUndef); simpl.
  - sget readable_data. sset Hthis. sget readable_data. sset Hthis.
    sget readable_data. sset Hthis. by heap_simpl.
  - sset Hthis. sget readable_data. sset Hthis.
    sget readable_data. sset Hthis. by heap_simpl.
Qed.

Lemma strict_cd_initializeFields_ordinary (this : loc) (vals : val) (s : Strict.state) :
  Strict.readable vals s → Strict.ordinary (VObj this) s →
  StrictCompanyData.initializeFields call this vals s
  = Strict.lift s (CompanyData.initializeFields this vals (Strict.heap_of s)).
Proof.
  destruct s as [h a z]. simpl. intros Hv Hthis.
  rewrite cd_initializeFields_run.
  unfold StrictCompanyData.initializeFields. srun.
  destruct vals as [| | | | | | |b]; simpl;
    rewrite ?sget_nullish, ?sget_primitive by done; simpl; try reflexivity;
    try (sset Hthis; rewrite ?sget_primitive by done; simpl;
         sset Hthis; rewrite ?sget_primitive by done; simpl; by sset Hthis).
  sget readable_data. sset Hthis. sget readable_data. sset Hthis.
  sget readable_data. sset Hthis. by heap_simpl.
Qed.

(** A bag that is [undefined] or [null]: the first read raises. *)
Lemma strict_initializeFields_nullish (this : loc) (vals : val) (s : Strict.state) :
  nullish vals = true →
  StrictOrderCompanyData.initializeFields call this vals s = Strict.Throw TypeError s ∧
  StrictCompanyData.initializeFields call this vals s = Strict.Throw TypeError s.
Proof.
  intros Hv.
  unfold StrictOrderCompanyData.initializeFields, StrictCompanyData.initializeFields.
  srun. split; by rewrite sget_nullish.
Qed.

(** An order that refuses the first store. *)
Lemma strict_ocd_initializeFields_refused (this : loc) (vals : val) (s : Strict.state) :
  nullish vals = false → Strict.readable vals s →
  Strict.refuses this "is_fiscal_order" s = true →
  StrictOrderCompanyData.initializeFields call this vals s = Strict.Throw TypeError s.
Proof.
  destruct s as [h a z]. intros Hn Hv Href.
  unfold StrictOrderCompanyData.initializeFields. srun.
  destruct vals as [| | | | | | |b]; try discriminate;
    rewrite ?sget_primitive by done; simpl; try by rewrite sset_refused.
  sget readable_data.
  destruct (strict_neq (hget b "is_fiscal_order" h) VUndef); simpl.
  - sget readable_data. by rewrite sset_refused.
  - by rewrite sset_refused.
Qed.

Lemma strict_cd_initializeFields_refused (this : loc) (vals : val) (s : Strict.state) :
  nullish vals = false → Strict.readable vals s →
  Strict.refuses this "company_data" s = true →
  StrictCompanyData.initializeFields call this vals s = Strict.Throw TypeError s.
Proof.
  destruct s as [h a z]. intros Hn Hv Href.
  unfold StrictCompanyData.initializeFields. srun.
  destruct vals as [| | | | | | |b]; try discriminate;
    rewrite ?sget_primitive by done; simpl; try by rewrite sset_refused.
  sget readable_data. by rewrite sset_refused.
Qed.

Lemma strict_setup_run_ocd ss (this : loc) (vals rv : val) (s s1 : Strict.state) :
  ss this vals s = Strict.Ok rv s1 →
  StrictOrderCompanyData.setup call ss this vals s
  = StrictOrderCompanyData.initializeFields call this vals s1.
Proof. intros Hs. unfold StrictOrderCompanyData.setup, Strict.bind. by rewrite Hs. Qed.

Lemma strict_setup_run_cd ss (this : loc) (vals rv : val) (s s1 : Strict.state) :
  ss this vals s = Strict.Ok rv s1 →
  StrictCompanyData.setup call ss this vals s
  = StrictCompanyData.initializeFields call this vals s1.
Proof. intros Hs. unfold StrictCompanyData.setup, Strict.bind. by rewrite Hs. Qed.

(** The header data: on a readable order and ordinary header data the second
    layer runs as the first. *)
Lemma strict_header_ordinary (order data : val) (s : Strict.state) :
  Strict.readable order s → Strict.ordinary data s →
  StrictReceiptPatch.buildReceiptHeaderData call order data s
  = Strict.lift s (ReceiptPatch.buildReceiptHeaderData order data (Strict.heap_of s)).
Proof.
  destruct s as [h a z]. simpl. intros Ho Hd.
  rewrite buildReceiptHeaderData_run.
  unfold StrictReceiptPatch.buildReceiptHeaderData, header_heap. srun.
  destruct (truthy order) eqn:Et; [| reflexivity].
  destruct order as [| | | | | | |o]; try discriminate;
    rewrite ?sget_primitive by done; simpl;
    try (destruct data as [| | | | | | |d]; rewrite ?sset_primitive by done;
         try reflexivity; simpl;
         sset Hd; rewrite ?sget_primitive by done; simpl; by sset Hd).
  sget readable_data.
  destruct data as [| | | | | | |d]; rewrite ?sset_primitive by done; try reflexivity.
  sset Hd. sget readable_data. sset Hd. by heap_simpl.
Qed.

Lemma strict_header_no_order (order data : val) (s : Strict.state) :
  truthy order = false →
  StrictReceiptPatch.buildReceiptHeaderData call order data s = Strict.Ok data s.
Proof.
  intros Ho. unfold StrictReceiptPatch.buildReceiptHeaderData. srun. by rewrite Ho.
Qed.

Lemma strict_header_refused (order : val) (d : loc) (s : Strict.state) :
  truthy order = true → Strict.readable order s →
  Strict.refuses d "is_fiscal_order" s = true →
  StrictReceiptPatch.buildReceiptHeaderData call order (VObj d) s
  = Strict.Throw TypeError s.
Proof.
  destruct s as [h a z]. intros Et Ho Href.
  unfold StrictReceiptPatch.buildReceiptHeaderData. srun. rewrite Et.
  destruct order as [| | | | | | |o]; try discriminate;
    rewrite ?sget_primitive by done; simpl; try by rewrite sset_refused.
  sget readable_data. by rewrite sset_refused.
Qed.

Lemma strict_header_run sg (this : loc) (args : list val) (data : val)
    (s s1 : Strict.state) :
  sg this args s = Strict.Ok data s1 →
  StrictReceiptPatch.getReceiptHeaderData call sg this args s
  = StrictReceiptPatch.buildReceiptHeaderData call (nth 0 args VUndef) data s1.
Proof.
  intros Hs. unfold StrictReceiptPatch.getReceiptHeaderData, Strict.bind.
  by rewrite Hs.
Qed.

End StrictRuns.

(** ** States without protection, and the frozen export *)

Lemma unprotected_ordinary (h : heap) (v : val) :
  Strict.ordinary v (Strict.mkState h ∅ ∅).
Proof. intros l _. simpl. split; [set_solver | intros k; apply lookup_empty]. Qed.

Lemma unprotected_readable (h : heap) (v : val) :
  Strict.readable v (Strict.mkState h ∅ ∅).
Proof. intros l k _. unfold Strict.data_at. simpl. by rewrite lookup_empty. Qed.

Lemma frozen_readable (v : val) : Strict.readable v StrictScenario.frozen.
Proof.
  intros l k _. unfold Strict.data_at, StrictScenario.frozen. simpl.
  destruct (_ !! (l, k)) as [t|] eqn:E; [| done].
  apply lookup_singleton_Some in E as [_ <-]. done.
Qed.

(** The frozen export [{total: "12.00"}], an object with no [headerData]: the
    store of [is_fiscal_order] raises, in both variants. *)
Lemma strict_export_frozen_throws :
  StrictOrderCompanyData.export_for_printing Strict.no_call
    (Strict.const_host (VObj Scenario.export)) Scenario.order [] StrictScenario.frozen
  = Strict.Throw TypeError StrictScenario.frozen ∧
  StrictCompanyData.export_for_printing Strict.no_call
    (Strict.const_host (VObj Scenario.export)) Scenario.order [] StrictScenario.frozen
  = Strict.Throw TypeError StrictScenario.frozen.
Proof. split; vm_compute; reflexivity. Qed.

(** A setter that throws: the store of [is_fiscal_order] on the export
    raises what the setter threw. *)
Lemma strict_export_throwing_setter :
  StrictCompanyData.export_for_printing StrictScenario.throwing
    (Strict.const_host (VObj Scenario.export)) Scenario.order [] StrictScenario.withSetter
  = Strict.Throw (Thrown (VStr "boom")) StrictScenario.withSetter.
Proof. vm_compute. reflexivity. Qed.

(** The same string [headerData] as in the first layer: a [TypeError]. *)
Lemma strict_export_string_headerData_throws :
  StrictOrderCompanyData.export_for_printing Strict.no_call
    (Strict.const_host (VObj Scenario.export)) Scenario.order [] StrictScenario.str
  = Strict.Throw TypeError StrictScenario.str ∧
  StrictCompanyData.export_for_printing Strict.no_call
    (Strict.const_host (VObj Scenario.export)) Scenario.order [] StrictScenario.str
  = Strict.Throw TypeError StrictScenario.str.
Proof. split; vm_compute; reflexivity. Qed.

(** ** The amended failure claim *)

(** C8, amended.  Ordinary records are extensible objects whose properties
    are plain writable data properties.  When the host's export is an
    ordinary record whose [headerData] is missing or otherwise falsy, and the
    order's properties are data properties, [export_for_printing] skips the
    override step: it returns the export, and the heap is the host's with the
    two custom fields stored on the export, whether or not the order has an
    override.  Given that the host's own method returns, no operation raises
    when the bag is neither [undefined] nor [null] and its properties are
    data properties, the order that is set up is an ordinary record, the
    export is an ordinary record whose [headerData] is an ordinary record or
    falsy, the header data is an ordinary record and the properties of the
    order it is built for are data properties. *)
Theorem no_failure_on_ordinary_objects
    (call : Strict.fid → val → list val → Strict.M val)
    (ss : loc → val → Strict.M val) (sx sg : loc → list val → Strict.M val)
    (this store : loc) (vals rv : val) (args gargs : list val) (r d : loc)
    (s s1 t t1 g g1 : Strict.state) :
  (sx this args s = Strict.Ok (VObj r) s1 →
   Strict.readable (VObj this) s1 →
   Strict.ordinary (VObj r) s1 →
   truthy (hget r "headerData" (Strict.heap_of s1)) = false →
     let h2 := hset r "non_fiscal_qr_data" (hget this "non_fiscal_qr_data" (Strict.heap_of s1))
                 (hset r "is_fiscal_order" (hget this "is_fiscal_order" (Strict.heap_of s1))
                    (Strict.heap_of s1)) in
     StrictOrderCompanyData.export_for_printing call sx this args s
       = Strict.Ok (VObj r) (Strict.with_heap h2 s1) ∧
     StrictCompanyData.export_for_printing call sx this args s
       = Strict.Ok (VObj r) (Strict.with_heap h2 s1)) ∧
  (sx this args s = Strict.Ok (VObj r) s1 →
   Strict.readable (VObj this) s1 →
   Strict.ordinary (VObj r) s1 →
   headerData_ok r (Strict.heap_of s1) →
   Strict.ordinary (hget r "headerData" (Strict.heap_of s1)) s1 →
     (∃ s2, StrictOrderCompanyData.export_for_printing call sx this args s
            = Strict.Ok (VObj r) s2) ∧
     (∃ s2, StrictCompanyData.export_for_printing call sx this args s
            = Strict.Ok (VObj r) s2)) ∧
  (ss this vals t = Strict.Ok rv t1 →
   nullish vals = false →
   Strict.readable vals t1 →
   Strict.ordinary (VObj this) t1 →
     (∃ t2, StrictOrderCompanyData.setup call ss this vals t = Strict.Ok tt t2) ∧
     (∃ t2, StrictCompanyData.setup call ss this vals t = Strict.Ok tt t2)) ∧
  (sg store gargs g = Strict.Ok (VObj d) g1 →
   Strict.readable (nth 0 gargs VUndef) g1 →
   Strict.ordinary (VObj d) g1 →
     ∃ g2, StrictReceiptPatch.getReceiptHeaderData call sg store gargs g
           = Strict.Ok (VObj d) g2).
Proof.
  split; [| split; [| split]].
  - intros Hx Hthis Hr Hh h2.
    rewrite (strict_export_run_ocd _ _ _ _ _ _ _ Hx), (strict_export_run_cd _ _ _ _ _ _ _ Hx).
    assert (Hhd : Strict.ordinary (peek (VObj r) "headerData" (Strict.heap_of s1)) s1).
    { simpl. intros l El. rewrite El in Hh. discriminate. }
    rewrite !strictPrintExport_ordinary by done.
    rewrite !printExport_object by (by right). simpl.
    unfold export_heap. by rewrite !override_heap_skipped by (by right).
  - intros Hx Hthis Hr Hok Hhd.
    rewrite (strict_export_run_ocd _ _ _ _ _ _ _ Hx), (strict_export_run_cd _ _ _ _ _ _ _ Hx).
    rewrite !strictPrintExport_ordinary by done.
    rewrite !printExport_object by done. simpl. eauto.
  - intros Hs Hv Hbag Hord.
    rewrite (strict_setup_run_ocd _ _ _ _ _ _ _ Hs), (strict_setup_run_cd _ _ _ _ _ _ _ Hs).
    rewrite strict_ocd_initializeFields_ordinary, strict_cd_initializeFields_ordinary
      by done.
    rewrite ocd_initializeFields_run, cd_initializeFields_run, Hv. simpl. eauto.
  - intros Hg Horder Hd.
    rewrite (strict_header_run _ _ _ _ _ _ _ Hg).
    rewrite strict_header_ordinary by done.
    rewrite buildReceiptHeaderData_run. destruct (truthy _); simpl; eauto.
Qed.

Lemma no_failure_on_ordinary_objects_witness :
  truthy (hget Scenario.order "company_data" Scenario.heapNoHeader) = true ∧
  ∃ s2, StrictCompanyData.export_for_printing Strict.no_call
          (Strict.const_host (VObj Scenario.export)) Scenario.order []
          StrictScenario.plain = Strict.Ok (VObj Scenario.export) s2 ∧
        hobj Scenario.export (Strict.heap_of s2) =
          {[ "total" := VStr "12.00";
             "is_fiscal_order" := VBool true;
             "non_fiscal_qr_data" := VBool false ]}.
Proof.
  split; [reflexivity |].
  destruct (no_failure_on_ordinary_objects Strict.no_call
              (Strict.const_host VUndef)
              (Strict.const_host (VObj Scenario.export))
              (Strict.const_host (VObj Scenario.header))
              Scenario.order Scenario.store (VObj Scenario.bag) VUndef [] []
              Scenario.export Scenario.header
              StrictScenario.plain StrictScenario.plain
              StrictScenario.emptyBag StrictScenario.emptyBag
              StrictScenario.plain StrictScenario.plain)
    as (Hskip & _).
  destruct (Hskip eq_refl (unprotected_readable _ _) (unprotected_ordinary _ _) eq_refl)
    as [_ Hcd].
  eexists. split; [exact Hcd |]. vm_compute. reflexivity.
Defined.

(** ** Outcomes of the three operations *)

(** X3. Given that the host's [setup] returned: [setup] raises a [TypeError]
    and stores nothing when the bag is [undefined] or [null]; for any other
    bag whose properties are data properties, it raises a [TypeError] and
    stores nothing when the order refuses the first store (a non-extensible
    order lacking the field, a read-only field, an accessor without setter),
    and it returns, with the heap the first layer computes, when the order is
    an ordinary record. *)
Theorem setup_outcome (call : Strict.fid → val → list val → Strict.M val)
    (ss : loc → val → Strict.M val) (this : loc) (vals rv : val) (s s1 : Strict.state) :
  ss this vals s = Strict.Ok rv s1 →
  (nullish vals = true →
     StrictOrderCompanyData.setup call ss this vals s = Strict.Throw TypeError s1 ∧
     StrictCompanyData.setup call ss this vals s = Strict.Throw TypeError s1) ∧
  (nullish vals = false → Strict.readable vals s1 →
     (Strict.refuses this "is_fiscal_order" s1 = true →
        StrictOrderCompanyData.setup call ss this vals s = Strict.Throw TypeError s1) ∧
     (Strict.refuses this "company_data" s1 = true →
        StrictCompanyData.setup call ss this vals s = Strict.Throw TypeError s1) ∧
     (Strict.ordinary (VObj this) s1 →
        (∃ h2, OrderCompanyData.initializeFields this vals (Strict.heap_of s1) = Ok tt h2 ∧
           StrictOrderCompanyData.setup call ss this vals s
           = Strict.Ok tt (Strict.with_heap h2 s1)) ∧
        (∃ h2, CompanyData.initializeFields this vals (Strict.heap_of s1) = Ok tt h2 ∧
           StrictCompanyData.setup call ss this vals s
           = Strict.Ok tt (Strict.with_heap h2 s1)))).
Proof.
  intros Hs.
  rewrite (strict_setup_run_ocd _ _ _ _ _ _ _ Hs), (strict_setup_run_cd _ _ _ _ _ _ _ Hs).
  split.
  - apply strict_initializeFields_nullish.
  - intros Hv Hbag. split; [| split].
    + by apply strict_ocd_initializeFields_refused.
    + by apply strict_cd_initializeFields_refused.
    + intros Hord.
      rewrite strict_ocd_initializeFields_ordinary, strict_cd_initializeFields_ordinary
        by done.
      rewrite ocd_initializeFields_run, cd_initializeFields_run, Hv. simpl.
      split; eexists; split; reflexivity.
Qed.

Lemma setup_outcome_witness :
  StrictOrderCompanyData.setup Strict.no_call (Strict.const_host VUndef)
    Scenario.order VUndef StrictScenario.emptyBag
  = Strict.Throw TypeError StrictScenario.emptyBag ∧
  StrictOrderCompanyData.setup Strict.no_call (Strict.const_host VUndef)
    Scenario.order (VObj Scenario.bag) StrictScenario.fixedOrder
  = Strict.Throw TypeError StrictScenario.fixedOrder.
Proof.
  split.
  - destruct (setup_outcome Strict.no_call (Strict.const_host VUndef) Scenario.order
                VUndef VUndef StrictScenario.emptyBag StrictScenario.emptyBag eq_refl)
      as [Hnull _].
    destruct (Hnull eq_refl) as [Hocd _]. exact Hocd.
  - destruct (setup_outcome Strict.no_call (Strict.const_host VUndef) Scenario.order
                (VObj Scenario.bag) VUndef StrictScenario.fixedOrder
                StrictScenario.fixedOrder eq_refl) as [_ Hobj].
    destruct (Hobj eq_refl) as [Href _].
    + intros l k _. unfold Strict.data_at. simpl. by rewrite lookup_empty.
    + apply Href. reflexivity.
Defined.



(** X8. Given that the host's [getReceiptHeaderData] returned [data]: with a
    missing or falsy order argument the patched method returns [data] in the
    state the host left, whatever [data] is.  With a truthy order whose
    properties are data properties, it raises a [TypeError], having stored
    nothing, when [data] is not an object or refuses the store of
    [is_fiscal_order], and it returns [data], with the heap the first layer
    computes, when [data] is an ordinary record. *)
Theorem header_data_outcome (call : Strict.fid → val → list val → Strict.M val)
    (sg : loc → list val → Strict.M val) (store : loc) (gargs : list val) (data : val)
    (g g1 : Strict.state) :
  sg store gargs g = Strict.Ok data g1 →
  (truthy (nth 0 gargs VUndef) = false →
     StrictReceiptPatch.getReceiptHeaderData call sg store gargs g = Strict.Ok data g1) ∧
  (gargs = [] →
     StrictReceiptPatch.getReceiptHeaderData call sg store gargs g = Strict.Ok data g1) ∧
  (truthy (nth 0 gargs VUndef) = true → Strict.readable (nth 0 gargs VUndef) g1 →
     (is_obj data = false →
        StrictReceiptPatch.getReceiptHeaderData call sg store gargs g
        = Strict.Throw TypeError g1) ∧
     (∀ d, data = VObj d → Strict.refuses d "is_fiscal_order" g1 = true →
        StrictReceiptPatch.getReceiptHeaderData call sg store gargs g
        = Strict.Throw TypeError g1) ∧
     (∀ d, data = VObj d → Strict.ordinary data g1 →
        StrictReceiptPatch.getReceiptHeaderData call sg store gargs g
        = Strict.Ok data
            (Strict.with_heap
               (header_heap (nth 0 gargs VUndef) d (Strict.heap_of g1)) g1))).
Proof.
  intros Hg. rewrite (strict_header_run _ _ _ _ _ _ _ Hg).
  split; [| split; [| intros Ho Hr; split; [| split]]].
  - apply strict_header_no_order.
  - intros ->. by apply strict_header_no_order.
  - intros Hd. rewrite strict_header_ordinary; try done.
    + rewrite buildReceiptHeaderData_run, Ho.
      destruct data; try discriminate; simpl; by rewrite ?with_heap_id.
    + intros l ->. discriminate.
  - intros d -> Href. by apply strict_header_refused.
  - intros d -> Hd. rewrite strict_header_ordinary by done.
    by rewrite buildReceiptHeaderData_run, Ho.
Qed.

Lemma header_data_outcome_witness :
  StrictReceiptPatch.getReceiptHeaderData Strict.no_call (Strict.const_host (VStr "none"))
    Scenario.store [] StrictScenario.frozen = Strict.Ok (VStr "none") StrictScenario.frozen ∧
  StrictReceiptPatch.getReceiptHeaderData Strict.no_call
    (Strict.const_host (VObj Scenario.export))
    Scenario.store [VObj Scenario.order] StrictScenario.frozen
  = Strict.Throw TypeError StrictScenario.frozen.
Proof.
  split.
  - destruct (header_data_outcome Strict.no_call (Strict.const_host (VStr "none"))
                Scenario.store [] (VStr "none") StrictScenario.frozen StrictScenario.frozen
                eq_refl) as (_ & Hnone & _).
    exact (Hnone eq_refl).
  - destruct (header_data_outcome Strict.no_call (Strict.const_host (VObj Scenario.export))
                Scenario.store [VObj Scenario.order] (VObj Scenario.export)
                StrictScenario.frozen StrictScenario.frozen eq_refl) as (_ & _ & Htruthy).
    destruct (Htruthy eq_refl (frozen_readable _)) as (_ & Href & _).
    apply (Href Scenario.export eq_refl). reflexivity.
Defined.
